(** * The NDArray manager and its WebGL storage (src/math/ndarray_manager.ts)

    A shallow embedding of [ndarray_manager.ts]: the module-level globals
    [GPGPU] and [TEXTURE_MANAGER], the helper [typedArrayToFloat32], the
    class [WebGLStorage] (an implementation of the interface
    [NDArrayDataStorage]) and the class [NDArrayManager].

    JavaScript code is effectful and may throw, so every function of the
    source becomes a computation in a state-and-exception monad [JS W A]
    over the part [W] of the world it can touch.  Typed arrays are objects:
    they live in a heap and are passed by reference. *)

From Stdlib Require Import ZArith List Lia Bool Sorted.
From Stdlib Require Import Floats.SpecFloat.
From stdpp Require Import base option list gmap strings.

Local Open Scope Z_scope.

(** ** Completions and the monad of JavaScript computations *)

(** What a [throw] statement of this module, or a failing property access,
    throws: [new Error(message)] or a [TypeError] of the runtime. *)
Inductive JsError : Type :=
| Error (message : string)
| TypeError (message : string).


(** A call either returns a value or completes abruptly with a thrown
    error. *)
Inductive Completion (A : Type) : Type :=
| Return (a : A)
| Throw (e : JsError).
Arguments Return {A} a.
Arguments Throw {A} e.

Definition JS (W A : Type) : Type := W -> Completion A * W.

Definition ret {W A} (a : A) : JS W A := fun w => (Return a, w).
Definition throw {W A} (e : JsError) : JS W A := fun w => (Throw e, w).
Definition bind {W A B} (c : JS W A) (k : A -> JS W B) : JS W B :=
  fun w =>
    match c w with
    | (Return a, w') => k a w'
    | (Throw e, w') => (Throw e, w')
    end.
Definition gets {W A} (f : W -> A) : JS W A := fun w => (Return (f w), w).
Definition modify {W} (f : W -> W) : JS W unit := fun w => (Return tt, f w).

Declare Scope js_scope.
Delimit Scope js_scope with js.
Notation "'let*' x ':=' c 'in' k" := (bind c (fun x => k))
  (at level 10, x pattern, c at level 100, k at level 200) : js_scope.
Notation "c ';;' k" := (bind c (fun _ => k))
  (at level 100, k at level 200, right associativity) : js_scope.

(** Reading or writing a property of [null] or [undefined] throws a
    [TypeError]; [what] names the access. *)
Definition deref {W A} (what : string) (o : option A) : JS W A :=
  match o with
  | Some a => ret a
  | None => throw (TypeError what)
  end.

(** The error of statement [throw new Error('Method not implemented.')]. *)
Definition not_implemented : JsError := Error "Method not implemented."%string.



(** ** Element types, 32-bit floats and typed arrays *)

(** [keyof DataTypes]: ['float32' | 'int32' | 'bool']. *)
Inductive DType : Type := dt_float32 | dt_int32 | dt_bool.

(** An element of a [Float32Array] is an IEEE-754 binary32 value: 24 bits
    of precision, maximal exponent 128. *)
Definition f32 : Type := spec_float.
Definition NaN : f32 := S754_nan.

(** Storing the integer [z] into a [Float32Array] slot keeps the nearest
    binary32 value (ties to even). *)
Definition f32_of_Z (z : Z) : f32 := binary_normalize 24 128 z 0 false.

(** The integer a finite binary32 value stands for, when it is one. *)
Definition Z_of_f32 (x : f32) : option Z :=
  match x with
  | S754_zero _ => Some 0
  | S754_finite s m e =>
      let v := if s then Z.neg m else Z.pos m in
      if 0 <=? e then Some (v * 2 ^ e)
      else if v mod 2 ^ (- e) =? 0 then Some (v / 2 ^ (- e)) else None
  | _ => None
  end.

(** [util.TypedArray = Float32Array | Int32Array | Uint8Array]. *)
Inductive TypedArray : Type :=
| Float32Array (elts : list f32)
| Int32Array (elts : list Z)
| Uint8Array (elts : list Z).

(** Typed arrays are heap objects; a reference is an index in the heap. *)
Definition ref : Type := nat.
Definition Heap : Type := list TypedArray.

(** [new Float32Array(...)]: a fresh object at the end of the heap. *)
Definition new_Float32Array (elts : list f32) (h : Heap) : ref * Heap :=
  (length h, h ++ [Float32Array elts]).

(** ** [typedArrayToFloat32] *)

(** [util.isValNaN] is imported from [../util], which is outside this
    module: it is a parameter of the development. *)
Class Util : Type := { isValNaN : Z -> DType -> bool }.

(** The loop [for (let i = 0; i < res.length; i++) { const val = a[i];
    res[i] = util.isValNaN(val, dtype) ? NaN : val; }], with [n] the
    iterations that remain ([res.length - i]).  Every read [a[i]] is in
    range, since [res.length = a.length]. *)
Fixpoint typedArrayToFloat32_loop `{Util} (a : list Z) (dtype : DType)
    (n i : nat) (res : list f32) : list f32 :=
  match n with
  | O => res
  | S n' =>
      let val := nth i a 0 in
      typedArrayToFloat32_loop a dtype n' (S i)
        (<[i := if isValNaN val dtype then NaN else f32_of_Z val]> res)
  end.

(** [new Float32Array(n)] is filled with [+0]; [res] is not aliased before
    it is returned, so its final contents are stored when it is allocated. *)
Definition typedArrayToFloat32 `{Util} (a : ref) (dtype : DType) : JS Heap ref :=
  fun h =>
    match h !! a with
    | None => (Throw (TypeError "a.length"%string), h)
    | Some (Float32Array _) => (Return a, h)
    | Some (Int32Array elts) | Some (Uint8Array elts) =>
        let res := repeat (S754_zero false) (length elts) in
        let res := typedArrayToFloat32_loop elts dtype (length res) 0 res in
        let (r, h') := new_Float32Array res h in
        (Return r, h')
    end.

(** ** The WebGL collaborators and the globals *)

(** [GPGPUContext], [TextureManager], [TextureType] and [webgl_util] are
    imported from [./backends/webgl/], which is outside this module: their
    types and the three operations used here are parameters.  The two
    objects are stateful and their methods may throw. *)
Class WebGLEnv : Type := {
  GPGPUContext : Type;
  TextureManager : Type;
  WebGLRenderingContext : Type;
  WebGLTexture : Type;
  TextureType : Type;
  TextureType_DEFAULT : TextureType;
  (** the field [gpgpu.gl] *)
  gl : GPGPUContext -> WebGLRenderingContext;
  (** [webgl_util.getTextureShapeFromLogicalShape(gl, logShape)] *)
  getTextureShapeFromLogicalShape : WebGLRenderingContext -> list Z -> Z * Z;
  (** [textureManager.acquireTexture(shapeRC)] *)
  acquireTexture : Z * Z -> JS TextureManager WebGLTexture;
  (** [gpgpu.uploadMatrixToTexture(texture, rows, columns, matrix)] *)
  uploadMatrixToTexture :
    option WebGLTexture -> Z -> Z -> list f32 -> JS GPGPUContext unit
}.

(** [interface WebGLData]: every field is optional. *)
Record WebGLData `{WebGLEnv} : Type := {
  texture : option WebGLTexture;
  texShape : option (Z * Z);
  type : option TextureType
}.

(** The calls made to the collaborators, in order: a history variable of
    the model, not a variable of the program. *)
Inductive ExtCall `{WebGLEnv} : Type :=
| Call_getTextureShapeFromLogicalShape (shape : list Z)
| Call_acquireTexture (shapeRC : Z * Z)
| Call_uploadMatrixToTexture
    (tex : option WebGLTexture) (rows cols : Z) (matrix : list f32).

(** What the code of [WebGLStorage] can touch: the heap of typed arrays,
    the globals [GPGPU] and [TEXTURE_MANAGER] ([null] until
    [initializeGPU]), and the field [db] of the storage object, which the
    class declares without an initialiser. *)
Record World `{WebGLEnv} : Type := {
  heap : Heap;
  GPGPU : option GPGPUContext;
  TEXTURE_MANAGER : option TextureManager;
  db : option (gmap Z WebGLData);
  calls : list ExtCall
}.

Section Globals.
Context `{WebGLEnv}.

Definition set_heap (h : Heap) (w : World) : World :=
  {| heap := h; GPGPU := GPGPU w; TEXTURE_MANAGER := TEXTURE_MANAGER w;
     db := db w; calls := calls w |}.
Definition set_GPGPU (g : option GPGPUContext) (w : World) : World :=
  {| heap := heap w; GPGPU := g; TEXTURE_MANAGER := TEXTURE_MANAGER w;
     db := db w; calls := calls w |}.
Definition set_TEXTURE_MANAGER (t : option TextureManager) (w : World) : World :=
  {| heap := heap w; GPGPU := GPGPU w; TEXTURE_MANAGER := t;
     db := db w; calls := calls w |}.
Definition set_db (d : option (gmap Z WebGLData)) (w : World) : World :=
  {| heap := heap w; GPGPU := GPGPU w; TEXTURE_MANAGER := TEXTURE_MANAGER w;
     db := d; calls := calls w |}.
Definition log_call (c : ExtCall) (w : World) : World :=
  {| heap := heap w; GPGPU := GPGPU w; TEXTURE_MANAGER := TEXTURE_MANAGER w;
     db := db w; calls := calls w ++ [c] |}.

(** The world when the module is loaded and a [WebGLStorage] constructed. *)
Definition initial_World (h : Heap) : World :=
  {| heap := h; GPGPU := None; TEXTURE_MANAGER := None; db := None;
     calls := [] |}.

(** [initializeGPU(gpgpu, textureManager)] *)
Definition initializeGPU (gpgpu : GPGPUContext) (textureManager : TextureManager)
    : JS World unit :=
  (modify (set_GPGPU (Some gpgpu)) ;;
   modify (set_TEXTURE_MANAGER (Some textureManager)))%js.

(** Running a computation over one component of the world. *)
Definition on_heap {A} (c : JS Heap A) : JS World A :=
  fun w => let (r, h) := c (heap w) in (r, set_heap h w).
Definition on_TEXTURE_MANAGER {A} (tm : TextureManager) (c : JS TextureManager A)
    : JS World A :=
  fun w => let (r, tm') := c tm in (r, set_TEXTURE_MANAGER (Some tm') w).
Definition on_GPGPU {A} (g : GPGPUContext) (c : JS GPGPUContext A) : JS World A :=
  fun w => let (r, g') := c g in (r, set_GPGPU (Some g') w).
End Globals.

(** ** [class WebGLStorage implements NDArrayDataStorage] *)

Module WebGLStorage.
Section Methods.
Context `{Util} `{WebGLEnv}.

(** [throwIfDisposed(): void { throw new Error('Method not implemented.'); }] *)
Definition throwIfDisposed : JS World unit := throw not_implemented.

(** Lines 86 to 92 of [allocate], after the call of [throwIfDisposed]. *)
Definition allocate_body (id : Z) (shape : list Z) (dtype : DType)
    : JS World WebGLData :=
  (let* gpgpu := bind (gets GPGPU) (deref "GPGPU.gl") in
   modify (log_call (Call_getTextureShapeFromLogicalShape shape)) ;;
   let texShape := getTextureShapeFromLogicalShape (gl gpgpu) shape in
   let* tm := bind (gets TEXTURE_MANAGER)
                   (deref "TEXTURE_MANAGER.acquireTexture") in
   modify (log_call (Call_acquireTexture texShape)) ;;
   let* texture := on_TEXTURE_MANAGER tm (acquireTexture texShape) in
   let type := TextureType_DEFAULT in
   let webGLData :=
     {| texture := Some texture; type := Some type;
        texShape := Some texShape |} in
   let* d := bind (gets db) (deref "this.db[id]") in
   modify (set_db (Some (<[id := webGLData]> d))) ;;
   ret webGLData)%js.

Definition allocate (id : Z) (shape : list Z) (dtype : DType)
    : JS World WebGLData :=
  (throwIfDisposed ;; allocate_body id shape dtype)%js.

(** The contents of the [Float32Array] at [r], as the device reads them. *)
Definition read_Float32Array (r : ref) : JS World (list f32) :=
  fun w =>
    match heap w !! r with
    | Some (Float32Array elts) => (Return elts, w)
    | _ => (Throw (TypeError "matrix"%string), w)
    end.

(** Lines 99 to 103 of [upload], after the call of [allocate].  The callee
    [GPGPU.uploadMatrixToTexture] is evaluated before the arguments. *)
Definition upload_body (webGLData : WebGLData) (dtype : DType) (values : ref)
    : JS World WebGLData :=
  (let tex := texture webGLData in
   let shapeRC := texShape webGLData in
   let* gpgpu := bind (gets GPGPU) (deref "GPGPU.uploadMatrixToTexture") in
   let* rc := deref "texShape[0]" shapeRC in
   let* floats := on_heap (typedArrayToFloat32 values dtype) in
   let* matrix := read_Float32Array floats in
   modify (log_call (Call_uploadMatrixToTexture tex (fst rc) (snd rc) matrix)) ;;
   on_GPGPU gpgpu (uploadMatrixToTexture tex (fst rc) (snd rc) matrix) ;;
   ret webGLData)%js.

Definition upload (id : Z) (shape : list Z) (dtype : DType) (values : ref)
    : JS World WebGLData :=
  (let* webGLData := allocate id shape dtype in
   upload_body webGLData dtype values)%js.

Definition download (id : Z) : JS World ref :=
  (throwIfDisposed ;; throw not_implemented)%js.

Definition dispose (id : Z) : JS World unit :=
  (throwIfDisposed ;; throw not_implemented)%js.
End Methods.
End WebGLStorage.

(** ** [interface NDArrayDataStorage] *)

(** A storage is an object with state [S] and the four methods of the
    interface; [StorageData] is the (empty) interface of what [allocate]
    and [upload] return. *)
Class NDArrayDataStorage (S : Type) : Type := {
  StorageData : Type;
  allocate : Z -> list Z -> DType -> JS S StorageData;
  upload : Z -> list Z -> DType -> ref -> JS S StorageData;
  download : Z -> JS S ref;
  dispose : Z -> JS S unit
}.

#[export] Instance WebGLStorage_NDArrayDataStorage `{Util} `{WebGLEnv}
    : NDArrayDataStorage World := {|
  StorageData := WebGLData;
  allocate := WebGLStorage.allocate;
  upload := WebGLStorage.upload;
  download := WebGLStorage.download;
  dispose := WebGLStorage.dispose
|}.

(** ** [class NDArrayManager] *)

(** [interface NDArrayData<T>] *)
Module NDArrayData.
Record t : Type := { id : Z; dtype : DType; shape : list Z }.
End NDArrayData.

(** A call of a method of the storage made by the manager: a history
    variable of the model. *)
Inductive StorageCall : Type :=
| Call_upload (id : Z) (shape : list Z) (dtype : DType) (values : ref).

(** A JavaScript number is an IEEE-754 binary64 value: 53 bits of
    precision, maximal exponent 1024.  [binary64_of_Z z] is the number
    nearest to the integer [z] (ties to even). *)
Definition binary64_of_Z (z : Z) : spec_float :=
  binary_normalize 53 1024 z 0 false.

(** [a + b] on two numbers that hold the integers [a] and [b]: the number
    nearest to the exact sum, read as an integer again ([Z_of_f32] reads
    a finite value of either format).  (A sum of
    magnitude 2^1024 or more gives [Infinity], which no counter of this
    module can reach; the model keeps the exact sum there.) *)
Definition number_add (a b : Z) : Z :=
  match Z_of_f32 (binary64_of_Z (a + b)) with
  | Some v => v
  | None => a + b
  end.

(** The manager object (its fields [nextId] and [storage], the latter with
    the state of the storage object it points to), and the output of
    [console.log].  [nextId] is a JavaScript number that holds an integer. *)
Record NDArrayManager (S : Type) : Type := {
  nextId : Z;
  storage : S;
  console : list (string * NDArrayData.t);
  storage_calls : list StorageCall
}.
Arguments nextId {S} _.
Arguments storage {S} _.
Arguments console {S} _.
Arguments storage_calls {S} _.

Section Manager.
Context {S : Type} `{NDArrayDataStorage S}.

(** [new NDArrayManager(storage)], with [private nextId = 1]. *)
Definition new_NDArrayManager (st : S) : NDArrayManager S :=
  {| nextId := 1; storage := st; console := []; storage_calls := [] |}.

(** [this.nextId++]: the value before the increment; the new value is
    the number [nextId + 1], which is [nextId] itself once [nextId] is
    2^53. *)
Definition nextId_post_increment : JS (NDArrayManager S) Z :=
  fun m =>
    (Return (nextId m),
     {| nextId := number_add (nextId m) 1; storage := storage m;
        console := console m; storage_calls := storage_calls m |}).

(** A method call [this.storage.f(...)]. *)
Definition on_storage {A} (c : JS S A) : JS (NDArrayManager S) A :=
  fun m =>
    let (r, st) := c (storage m) in
    (r, {| nextId := nextId m; storage := st; console := console m;
           storage_calls := storage_calls m |}).

Definition log_storage_call (c : StorageCall) : JS (NDArrayManager S) unit :=
  modify (fun m =>
    {| nextId := nextId m; storage := storage m; console := console m;
       storage_calls := storage_calls m ++ [c] |}).

(** [private track(data) { console.log('tracked', data); }] *)
Definition track (data : NDArrayData.t) : JS (NDArrayManager S) unit :=
  modify (fun m =>
    {| nextId := nextId m; storage := storage m;
       console := console m ++ [("tracked"%string, data)];
       storage_calls := storage_calls m |}).

(** [makeNDArrayData(shape, dtype, values?)]; [values != null] holds of
    everything but [null] and [undefined]. *)
Definition makeNDArrayData (shape : list Z) (dtype : DType) (values : option ref)
    : JS (NDArrayManager S) NDArrayData.t :=
  (let* id := nextId_post_increment in
   let data :=
     {| NDArrayData.shape := shape; NDArrayData.dtype := dtype;
        NDArrayData.id := id |} in
   match values with
   | Some v =>
       log_storage_call (Call_upload id shape dtype v) ;;
       on_storage (upload id shape dtype v) ;;
       ret tt
   | None => ret tt
   end ;;
   track data ;;
   ret data)%js.

(** What a client holding the manager and the storage it was built from
    can do; it may catch what a call throws and go on. *)
Inductive Action : Type :=
| Make (shape : list Z) (dtype : DType) (values : option ref)
| Storage_allocate (id : Z) (shape : list Z) (dtype : DType)
| Storage_upload (id : Z) (shape : list Z) (dtype : DType) (values : ref)
| Storage_download (id : Z)
| Storage_dispose (id : Z).

(** Runs the actions in order; the result lists the completions of the
    calls of [makeNDArrayData], in order. *)
Fixpoint run (acts : list Action) (m : NDArrayManager S)
    : list (Completion NDArrayData.t) * NDArrayManager S :=
  match acts with
  | [] => ([], m)
  | Make shape dtype values :: acts' =>
      let (r, m') := makeNDArrayData shape dtype values m in
      let (rs, m'') := run acts' m' in
      (r :: rs, m'')
  | Storage_allocate id shape dtype :: acts' =>
      run acts' (snd (on_storage (allocate id shape dtype) m))
  | Storage_upload id shape dtype values :: acts' =>
      run acts' (snd (on_storage (upload id shape dtype values) m))
  | Storage_download id :: acts' =>
      run acts' (snd (on_storage (download id) m))
  | Storage_dispose id :: acts' =>
      run acts' (snd (on_storage (dispose id) m))
  end.

(** The identifiers of the descriptors that were returned. *)
Definition returned_ids (rs : list (Completion NDArrayData.t)) : list Z :=
  omap (fun r => match r with
                 | Return d => Some (NDArrayData.id d)
                 | Throw _ => None
                 end) rs.
End Manager.

(** ** Sample collaborators, to run the model on concrete inputs *)

Module Sample.

(** A marker per element type: the least [int32] and the byte 255. *)
Definition sample_isValNaN (val : Z) (dtype : DType) : bool :=
  match dtype with
  | dt_float32 => false
  | dt_int32 => val =? - 2 ^ 31
  | dt_bool => val =? 255
  end.

#[export] Instance sample_Util : Util := {| isValNaN := sample_isValNaN |}.

(** A texture manager that numbers the textures it hands out, a context
    that keeps what was written last, and one row per array. *)
#[export] Instance sample_WebGLEnv : WebGLEnv := {|
  GPGPUContext := list f32;
  TextureManager := nat;
  WebGLRenderingContext := unit;
  WebGLTexture := nat;
  TextureType := unit;
  TextureType_DEFAULT := tt;
  gl := fun _ => tt;
  getTextureShapeFromLogicalShape := fun _ shape => (1, fold_right Z.mul 1 shape);
  acquireTexture := fun _ n => (Return n, Datatypes.S n);
  uploadMatrixToTexture := fun _ _ _ matrix _ => (Return tt, matrix)
|}.

(** Four typed arrays: [Float32Array [1; 2; 3; 4; 5; 6]],
    [Int32Array [7; -2^31; 16777217]], [Uint8Array [0; 1; 255]] and
    [Float32Array [1; 2; 3]]. *)
Definition sample_heap : Heap :=
  [ Float32Array (map f32_of_Z [1; 2; 3; 4; 5; 6]);
    Int32Array [7; - 2 ^ 31; 16777217];
    Uint8Array [0; 1; 255];
    Float32Array (map f32_of_Z [1; 2; 3]) ].

(** A storage under construction is not torn down; the globals are set. *)
Definition sample_World : World :=
  {| heap := sample_heap; GPGPU := Some []; TEXTURE_MANAGER := Some 0%nat;
     db := None; calls := [] |}.

(** The same world, had the constructor initialised [db] to [{}]. *)
Definition sample_World_with_db : World :=
  {| heap := sample_heap; GPGPU := Some []; TEXTURE_MANAGER := Some 0%nat;
     db := Some ∅; calls := [] |}.

(** A test double of the interface: its state is the heap and the
    identifiers uploaded so far; [upload] records the identifier and
    returns, the other methods do nothing. *)
Definition stub_NDArrayDataStorage : NDArrayDataStorage (Heap * list Z) := {|
  StorageData := unit;
  allocate := fun _ _ _ => ret tt;
  upload := fun id _ _ _ =>
    (modify (fun s : Heap * list Z => (fst s, snd s ++ [id])) ;; ret tt)%js;
  download := fun _ => ret 0%nat;
  dispose := fun _ => ret tt
|}.

End Sample.

(** ** Histories of a run *)

(** The descriptors that were returned, in order. *)
Definition returned_data (rs : list (Completion NDArrayData.t))
    : list NDArrayData.t :=
  omap (fun r => match r with
                 | Return d => Some d
                 | Throw _ => None
                 end) rs.

(** The arguments of the calls of [makeNDArrayData] among the actions of a
    client, in order. *)
Definition makes (acts : list Action) : list (list Z * DType * option ref) :=
  omap (fun a => match a with
                 | Make shape dtype values => Some (shape, dtype, values)
                 | _ => None
                 end) acts.

(** The uploads asked for by calls of [makeNDArrayData] that are numbered
    from [n] on: one for each call that has values. *)
Fixpoint uploads_from (n : Z) (ms : list (list Z * DType * option ref))
    : list StorageCall :=
  match ms with
  | [] => []
  | (shape, dtype, Some v) :: ms' =>
      Call_upload n shape dtype v :: uploads_from (n + 1) ms'
  | (_, _, None) :: ms' => uploads_from (n + 1) ms'
  end.

(** The state of the storage after the actions of a client, the calls of
    [makeNDArrayData] being numbered from [n] on: the uploads of the calls
    that have values and the calls the client makes itself, performed in
    order on the state [st]. *)
Fixpoint storage_after {S : Type} `{NDArrayDataStorage S} (n : Z)
    (acts : list Action) (st : S) : S :=
  match acts with
  | [] => st
  | Make shape dtype (Some v) :: acts' =>
      storage_after (n + 1) acts' (snd (upload n shape dtype v st))
  | Make _ _ None :: acts' => storage_after (n + 1) acts' st
  | Storage_allocate id shape dtype :: acts' =>
      storage_after n acts' (snd (allocate id shape dtype st))
  | Storage_upload id shape dtype values :: acts' =>
      storage_after n acts' (snd (upload id shape dtype values st))
  | Storage_download id :: acts' => storage_after n acts' (snd (download id st))
  | Storage_dispose id :: acts' => storage_after n acts' (snd (dispose id st))
  end.

(** * Properties *)

(** ** The monad *)

Lemma bind_throw {W A B} (e : JsError) (k : A -> JS W B) (w : W) :
  bind (throw e) k w = (Throw e, w).
Proof. reflexivity. Qed.

Lemma bind_ret {W A B} (a : A) (k : A -> JS W B) (w : W) :
  bind (ret a) k w = k a w.
Proof. reflexivity. Qed.

Lemma bind_Throw {W A B} (c : JS W A) (k : A -> JS W B) (w w' : W)
    (e : JsError) :
  c w = (Throw e, w') -> bind c k w = (Throw e, w').
Proof. intros Hc. unfold bind. now rewrite Hc. Qed.

(** ** 32-bit floats *)

(** The number of binary digits, as [SpecFloat] counts them. *)
Lemma digits2_pos_size (p : positive) : digits2_pos p = Pos.size p.
Proof. induction p; simpl; congruence. Qed.

(** Shifting left by [k] adds [k] digits and multiplies by [2 ^ k]. *)
Lemma digits2_pos_iter_xO (m k : positive) :
  digits2_pos (Pos.iter xO m k) = (digits2_pos m + k)%positive.
Proof.
  induction k using Pos.peano_ind.
  - simpl. lia.
  - rewrite Pos.iter_succ. simpl. rewrite IHk. lia.
Qed.

Lemma Zpos_iter_xO (m k : positive) :
  Z.pos (Pos.iter xO m k) = Z.pos m * 2 ^ Z.pos k.
Proof.
  induction k using Pos.peano_ind.
  - simpl. lia.
  - rewrite Pos.iter_succ, Pos2Z.inj_succ, Z.pow_succ_r by lia.
    rewrite Pos2Z.inj_xO, IHk. lia.
Qed.

Lemma digits2_pos_le_24 (m : positive) :
  Z.pos m < 2 ^ 24 -> Z.pos (digits2_pos m) <= 24.
Proof.
  intros Hm. rewrite digits2_pos_size.
  pose proof (Pos.size_le m) as Hle.
  assert (H2 : 2 ^ Z.pos (Pos.size m) < 2 ^ 25).
  { rewrite <- Pos2Z.inj_pow. change 2 with (Z.pos 2).
    apply Z.le_lt_trans with (Z.pos m~0); [exact Hle|]. lia. }
  apply Z.pow_lt_mono_r_iff in H2; lia.
Qed.

(** A mantissa of 24 digits with an exponent in range is kept as it is. *)
Lemma binary_round_aux_exact (s : bool) (mz : positive) (ez : Z) :
  Z.pos (digits2_pos mz) = 24 -> -149 <= ez <= 104 ->
  binary_round_aux 24 128 s (Z.pos mz) ez loc_Exact = S754_finite s mz ez.
Proof.
  intros Hdig He.
  assert (H0 : fexp 24 128 (Z.pos (digits2_pos mz) + ez) - ez = 0).
  { unfold fexp, emin. lia. }
  unfold binary_round_aux, shr_fexp.
  cbn [Zdigits2 shr_record_of_loc]. rewrite H0.
  cbn [shr shr_m round_nearest_even loc_of_shr_record Zdigits2
       shr_record_of_loc].
  rewrite H0. cbn [shr shr_m].
  replace (ez <=? 128 - 24) with true by (symmetry; apply Z.leb_le; lia).
  reflexivity.
Qed.

(** A positive integer below 2^24 is shifted left to 24 digits, and
    nothing is rounded away. *)
Lemma binary_round_exact (s : bool) (m : positive) :
  Z.pos m < 2 ^ 24 ->
  exists m' e, binary_round 24 128 s m 0 = S754_finite s m' e
    /\ -23 <= e <= 0 /\ Z.pos m' = Z.pos m * 2 ^ (- e).
Proof.
  intros Hm. pose proof (digits2_pos_le_24 m Hm) as Hd.
  unfold binary_round.
  assert (Hfexp : fexp 24 128 (Z.pos (digits2_pos m) + 0)
                  = Z.pos (digits2_pos m) - 24).
  { unfold fexp, emin. lia. }
  rewrite Hfexp. unfold shl_align.
  destruct (Z.pos (digits2_pos m) - 24 - 0) as [|q|q] eqn:Hq; try lia.
  - exists m, 0. split; [|split; [lia|simpl; lia]].
    apply binary_round_aux_exact; lia.
  - exists (Pos.iter xO m q), (Z.pos (digits2_pos m) - 24).
    split; [|split; [lia|]].
    + apply binary_round_aux_exact; [|lia].
      rewrite digits2_pos_iter_xO. lia.
    + rewrite Zpos_iter_xO. f_equal. f_equal. lia.
Qed.

(** Every integer of magnitude at most 2^24 is stored exactly in a
    [Float32Array] slot. *)
Lemma f32_of_Z_exact (z : Z) :
  Z.abs z <= 2 ^ 24 -> Z_of_f32 (f32_of_Z z) = Some z.
Proof.
  intros Hz.
  destruct (Z.eq_dec (Z.abs z) (2 ^ 24)) as [Heq|Hne].
  { destruct (Z.abs_eq_or_opp z) as [E|E]; rewrite E in Heq.
    - subst z. vm_compute. reflexivity.
    - assert (z = - 2 ^ 24) by lia. subst z. vm_compute. reflexivity. }
  destruct z as [|m|m].
  - reflexivity.
  - destruct (binary_round_exact false m) as (m' & e & Hr & He & Hv); [lia|].
    unfold f32_of_Z, binary_normalize. rewrite Hr. unfold Z_of_f32. cbv zeta.
    destruct (Z.leb_spec 0 e).
    + assert (e = 0) by lia. subst e. rewrite Hv. simpl. f_equal. lia.
    + rewrite Hv, Z.mod_mul, Z.div_mul by lia. reflexivity.
  - destruct (binary_round_exact true m) as (m' & e & Hr & He & Hv); [lia|].
    unfold f32_of_Z, binary_normalize. rewrite Hr. unfold Z_of_f32. cbv zeta.
    assert (Hn : Z.neg m' = Z.neg m * 2 ^ (- e)).
    { rewrite <- !Pos2Z.opp_pos, Hv. lia. }
    destruct (Z.leb_spec 0 e).
    + assert (e = 0) by lia. subst e. rewrite Hn. simpl. f_equal. lia.
    + rewrite Hn, Z.mod_mul, Z.div_mul by lia. reflexivity.
Qed.

(** In particular every element of a [Uint8Array]. *)
Lemma f32_of_Z_exact_uint8 (z : Z) :
  0 <= z < 256 -> Z_of_f32 (f32_of_Z z) = Some z.
Proof. intros Hz. apply f32_of_Z_exact. lia. Qed.

(** An [int32] beyond 24 bits is stored as the nearest binary32 value. *)
Example f32_of_Z_nearest :
  Z_of_f32 (f32_of_Z 16777216) = Some 16777216 /\
  Z_of_f32 (f32_of_Z 16777217) = Some 16777216 /\
  Z_of_f32 (f32_of_Z (- 2 ^ 31)) = Some (- 2 ^ 31).
Proof. vm_compute. repeat split. Qed.

(** ** Numbers

    The same facts for binary64, the format of [nextId]. *)

Lemma digits2_pos_le_53 (m : positive) :
  Z.pos m < 2 ^ 53 -> Z.pos (digits2_pos m) <= 53.
Proof.
  intros Hm. rewrite digits2_pos_size.
  pose proof (Pos.size_le m) as Hle.
  assert (H2 : 2 ^ Z.pos (Pos.size m) < 2 ^ 54).
  { rewrite <- Pos2Z.inj_pow. change 2 with (Z.pos 2).
    apply Z.le_lt_trans with (Z.pos m~0); [exact Hle|]. lia. }
  apply Z.pow_lt_mono_r_iff in H2; lia.
Qed.

Lemma binary64_round_aux_exact (s : bool) (mz : positive) (ez : Z) :
  Z.pos (digits2_pos mz) = 53 -> -1074 <= ez <= 971 ->
  binary_round_aux 53 1024 s (Z.pos mz) ez loc_Exact = S754_finite s mz ez.
Proof.
  intros Hdig He.
  assert (H0 : fexp 53 1024 (Z.pos (digits2_pos mz) + ez) - ez = 0).
  { unfold fexp, emin. lia. }
  unfold binary_round_aux, shr_fexp.
  cbn [Zdigits2 shr_record_of_loc]. rewrite H0.
  cbn [shr shr_m round_nearest_even loc_of_shr_record Zdigits2
       shr_record_of_loc].
  rewrite H0. cbn [shr shr_m].
  replace (ez <=? 1024 - 53) with true by (symmetry; apply Z.leb_le; lia).
  reflexivity.
Qed.

Lemma binary64_round_exact (s : bool) (m : positive) :
  Z.pos m < 2 ^ 53 ->
  exists m' e, binary_round 53 1024 s m 0 = S754_finite s m' e
    /\ -52 <= e <= 0 /\ Z.pos m' = Z.pos m * 2 ^ (- e).
Proof.
  intros Hm. pose proof (digits2_pos_le_53 m Hm) as Hd.
  unfold binary_round.
  assert (Hfexp : fexp 53 1024 (Z.pos (digits2_pos m) + 0)
                  = Z.pos (digits2_pos m) - 53).
  { unfold fexp, emin. lia. }
  rewrite Hfexp. unfold shl_align.
  destruct (Z.pos (digits2_pos m) - 53 - 0) as [|q|q] eqn:Hq; try lia.
  - exists m, 0. split; [|split; [lia|simpl; lia]].
    apply binary64_round_aux_exact; lia.
  - exists (Pos.iter xO m q), (Z.pos (digits2_pos m) - 53).
    split; [|split; [lia|]].
    + apply binary64_round_aux_exact; [|lia].
      rewrite digits2_pos_iter_xO. lia.
    + rewrite Zpos_iter_xO. f_equal. f_equal. lia.
Qed.

(** Every integer of magnitude at most 2^53 is a number. *)
Lemma binary64_of_Z_exact (z : Z) :
  Z.abs z <= 2 ^ 53 -> Z_of_f32 (binary64_of_Z z) = Some z.
Proof.
  intros Hz.
  destruct (Z.eq_dec (Z.abs z) (2 ^ 53)) as [Heq|Hne].
  { destruct (Z.abs_eq_or_opp z) as [E|E]; rewrite E in Heq.
    - subst z. vm_compute. reflexivity.
    - assert (z = - 2 ^ 53) by lia. subst z. vm_compute. reflexivity. }
  destruct z as [|m|m].
  - reflexivity.
  - destruct (binary64_round_exact false m) as (m' & e & Hr & He & Hv); [lia|].
    unfold binary64_of_Z, binary_normalize. rewrite Hr. unfold Z_of_f32. cbv zeta.
    destruct (Z.leb_spec 0 e).
    + assert (e = 0) by lia. subst e. rewrite Hv. simpl. f_equal. lia.
    + rewrite Hv, Z.mod_mul, Z.div_mul by lia. reflexivity.
  - destruct (binary64_round_exact true m) as (m' & e & Hr & He & Hv); [lia|].
    unfold binary64_of_Z, binary_normalize. rewrite Hr. unfold Z_of_f32. cbv zeta.
    assert (Hn : Z.neg m' = Z.neg m * 2 ^ (- e)).
    { rewrite <- !Pos2Z.opp_pos, Hv. lia. }
    destruct (Z.leb_spec 0 e).
    + assert (e = 0) by lia. subst e. rewrite Hn. simpl. f_equal. lia.
    + rewrite Hn, Z.mod_mul, Z.div_mul by lia. reflexivity.
Qed.

(** Addition is exact as long as the sum has magnitude at most 2^53. *)
Lemma number_add_exact (a b : Z) :
  Z.abs (a + b) <= 2 ^ 53 -> number_add a b = a + b.
Proof. intros Hab. unfold number_add. now rewrite binary64_of_Z_exact. Qed.

(** At 2^53 adding 1 changes nothing: 2^53 + 1 lies halfway between two
    numbers and goes to the even one. *)
Lemma number_add_2_53 : number_add (2 ^ 53) 1 = 2 ^ 53.
Proof. vm_compute. reflexivity. Qed.

(** A counter that starts between 0 and 2^53 never decreases and never
    leaves that range. *)
Lemma number_succ_range (n : Z) :
  0 <= n <= 2 ^ 53 -> n <= number_add n 1 <= 2 ^ 53.
Proof.
  intros Hn. destruct (Z.eq_dec n (2 ^ 53)) as [->|Hne].
  - rewrite number_add_2_53. lia.
  - rewrite number_add_exact by lia. lia.
Qed.

(** ** [typedArrayToFloat32] *)

Section TypedArrayToFloat32.
Context `{Util}.

(** The element written at index [i]. *)
Local Abbreviation written dtype :=
  (fun val : Z => if isValNaN val dtype then NaN else f32_of_Z val).

(** After the iterations from [i] on, the slots below [i] are as they were
    and every slot from [i] on holds the element written for it. *)
Lemma typedArrayToFloat32_loop_spec (a : list Z) (dtype : DType) (n i : nat)
    (res : list f32) :
  length res = length a -> (i + n)%nat = length a ->
  typedArrayToFloat32_loop a dtype n i res
  = take i res ++ map (written dtype) (drop i a).
Proof.
  revert i res. induction n as [|n IH]; intros i res Hlen Hin; simpl.
  - rewrite Nat.add_0_r in Hin. subst i.
    rewrite <- Hlen at 1. rewrite firstn_all.
    rewrite drop_all. simpl. now rewrite app_nil_r.
  - rewrite IH by (rewrite ?length_insert; lia).
    assert (Hi : (i < length a)%nat) by lia.
    destruct (lookup_lt_is_Some_2 a i Hi) as [v Hv].
    rewrite (drop_S a v i Hv). simpl.
    rewrite (nth_lookup_Some a i 0 v Hv).
    rewrite (take_S_r (<[i:=written dtype v]> res) i (written dtype v))
      by (apply list_lookup_insert_eq; lia).
    rewrite take_insert_ge by lia.
    now rewrite <- app_assoc.
Qed.

Lemma typedArrayToFloat32_loop_all (a : list Z) (dtype : DType) :
  typedArrayToFloat32_loop a dtype (length a) 0
    (repeat (S754_zero false) (length a))
  = map (written dtype) a.
Proof.
  rewrite typedArrayToFloat32_loop_spec by (rewrite ?repeat_length; lia).
  reflexivity.
Qed.

Lemma typedArrayToFloat32_integers (h : Heap) (a : ref) (dtype : DType)
    (elts : list Z) :
  h !! a = Some (Int32Array elts) \/ h !! a = Some (Uint8Array elts) ->
  typedArrayToFloat32 a dtype h
  = (Return (length h), h ++ [Float32Array (map (written dtype) elts)]).
Proof.
  intros [Ha|Ha]; unfold typedArrayToFloat32, new_Float32Array; rewrite Ha;
    rewrite repeat_length, typedArrayToFloat32_loop_all; reflexivity.
Qed.

(** C3, amended. [typedArrayToFloat32] returns a [Float32Array] argument
    itself, the same object, and leaves the heap as it is.  For an [Int32Array] or a
    [Uint8Array] it returns a new [Float32Array] (a reference that was not
    in the heap, every older object unchanged) of the same length, whose
    element [i] is [NaN] when [util.isValNaN(a[i], dtype)] and otherwise
    [a[i]] itself, held as a [Float32Array] slot holds a number: with its
    exact value when it has at most 24 bits. *)
Theorem typedArrayToFloat32_normalizes (h : Heap) (a : ref) (dtype : DType)
    (arr : TypedArray) :
  h !! a = Some arr ->
  match arr with
  | Float32Array _ => typedArrayToFloat32 a dtype h = (Return a, h)
  | Int32Array elts | Uint8Array elts =>
      exists (r : ref) (res : list f32),
        typedArrayToFloat32 a dtype h = (Return r, h ++ [Float32Array res])
        /\ h !! r = None
        /\ (h ++ [Float32Array res]) !! r = Some (Float32Array res)
        /\ length res = length elts
        /\ forall (i : nat) (val : Z),
             elts !! i = Some val ->
             res !! i = Some (if isValNaN val dtype then NaN else f32_of_Z val)
             /\ (Z.abs val <= 2 ^ 24 -> Z_of_f32 (f32_of_Z val) = Some val)
  end.
Proof.
  intros Ha.
  assert (Hint : forall elts,
    h !! a = Some (Int32Array elts) \/ h !! a = Some (Uint8Array elts) ->
    exists (r : ref) (res : list f32),
      typedArrayToFloat32 a dtype h = (Return r, h ++ [Float32Array res])
      /\ h !! r = None
      /\ (h ++ [Float32Array res]) !! r = Some (Float32Array res)
      /\ length res = length elts
      /\ forall (i : nat) (val : Z),
           elts !! i = Some val ->
           res !! i = Some (if isValNaN val dtype then NaN else f32_of_Z val)
           /\ (Z.abs val <= 2 ^ 24 -> Z_of_f32 (f32_of_Z val) = Some val)).
  { intros elts Hk. exists (length h), (map (written dtype) elts).
    split; [now apply typedArrayToFloat32_integers|].
    split; [apply lookup_ge_None_2; lia|].
    split; [apply list_lookup_middle; reflexivity|].
    split; [apply length_map|].
    intros i val Hi. split; [|apply f32_of_Z_exact].
    rewrite list_lookup_fmap, Hi. reflexivity. }
  destruct arr as [fs|elts|elts].
  - unfold typedArrayToFloat32. now rewrite Ha.
  - apply Hint. now left.
  - apply Hint. now right.
Qed.

(** An element that is not a marker and has at most 24 bits (every byte of
    a [Uint8Array] has) is found in the copy with its exact value. *)
Lemma typedArrayToFloat32_exact (h : Heap) (a : ref) (dtype : DType)
    (elts : list Z) (i : nat) (val : Z) :
  h !! a = Some (Int32Array elts) \/ h !! a = Some (Uint8Array elts) ->
  elts !! i = Some val -> isValNaN val dtype = false -> Z.abs val <= 2 ^ 24 ->
  exists (res : list f32) (x : f32),
    typedArrayToFloat32 a dtype h = (Return (length h), h ++ [Float32Array res])
    /\ res !! i = Some x /\ Z_of_f32 x = Some val.
Proof.
  intros Ha Hi Hnan Hval.
  exists (map (written dtype) elts), (f32_of_Z val).
  split; [now apply typedArrayToFloat32_integers|].
  split; [|now apply f32_of_Z_exact].
  rewrite list_lookup_fmap, Hi. simpl. now rewrite Hnan.
Qed.
End TypedArrayToFloat32.

(** ** [NDArrayManager] *)

Section ManagerFacts.
Context {S : Type} `{NDArrayDataStorage S}.

(** The descriptor built by a call made in state [m]. *)
Local Abbreviation data_of m shape dtype :=
  {| NDArrayData.id := nextId m; NDArrayData.dtype := dtype;
     NDArrayData.shape := shape |}.

Lemma makeNDArrayData_no_values (shape : list Z) (dtype : DType)
    (m : NDArrayManager S) :
  makeNDArrayData shape dtype None m
  = (Return (data_of m shape dtype),
     {| nextId := number_add (nextId m) 1; storage := storage m;
        console := console m ++ [("tracked"%string, data_of m shape dtype)];
        storage_calls := storage_calls m |}).
Proof. reflexivity. Qed.

Lemma makeNDArrayData_upload_returns (shape : list Z) (dtype : DType)
    (values : ref) (m : NDArrayManager S) (r : StorageData) (st' : S) :
  upload (nextId m) shape dtype values (storage m) = (Return r, st') ->
  makeNDArrayData shape dtype (Some values) m
  = (Return (data_of m shape dtype),
     {| nextId := number_add (nextId m) 1; storage := st';
        console := console m ++ [("tracked"%string, data_of m shape dtype)];
        storage_calls :=
          storage_calls m ++ [Call_upload (nextId m) shape dtype values] |}).
Proof.
  intros Hup. unfold makeNDArrayData, bind, nextId_post_increment,
    log_storage_call, on_storage, modify, track, ret. simpl.
  now rewrite Hup.
Qed.

Lemma makeNDArrayData_upload_throws (shape : list Z) (dtype : DType)
    (values : ref) (m : NDArrayManager S) (e : JsError) (st' : S) :
  upload (nextId m) shape dtype values (storage m) = (Throw e, st') ->
  makeNDArrayData shape dtype (Some values) m
  = (Throw e,
     {| nextId := number_add (nextId m) 1; storage := st';
        console := console m;
        storage_calls :=
          storage_calls m ++ [Call_upload (nextId m) shape dtype values] |}).
Proof.
  intros Hup. unfold makeNDArrayData, bind, nextId_post_increment,
    log_storage_call, on_storage, modify, track, ret. simpl.
  now rewrite Hup.
Qed.

(** Every call increments the counter, and a descriptor that is returned
    carries the identifier that was next. *)
Lemma makeNDArrayData_nextId (shape : list Z) (dtype : DType)
    (values : option ref) (m : NDArrayManager S) :
  nextId (snd (makeNDArrayData shape dtype values m)) = number_add (nextId m) 1
  /\ forall d, fst (makeNDArrayData shape dtype values m) = Return d ->
               d = data_of m shape dtype.
Proof.
  destruct values as [v|].
  - destruct (upload (nextId m) shape dtype v (storage m)) as [[r|e] st'] eqn:Hup.
    + rewrite (makeNDArrayData_upload_returns _ _ _ _ _ _ Hup). simpl.
      split; [reflexivity|]. now intros d [= <-].
    + rewrite (makeNDArrayData_upload_throws _ _ _ _ _ _ Hup). simpl.
      split; [reflexivity|]. discriminate.
  - rewrite makeNDArrayData_no_values. simpl.
    split; [reflexivity|]. now intros d [= <-].
Qed.

Lemma on_storage_nextId {A} (c : JS S A) (m : NDArrayManager S) :
  nextId (snd (on_storage c m)) = nextId m.
Proof. unfold on_storage. now destruct (c (storage m)). Qed.

Lemma run_Make (shape : list Z) (dtype : DType) (values : option ref)
    (acts : list Action) (m : NDArrayManager S) :
  run (Make shape dtype values :: acts) m
  = (fst (makeNDArrayData shape dtype values m)
       :: fst (run acts (snd (makeNDArrayData shape dtype values m))),
     snd (run acts (snd (makeNDArrayData shape dtype values m)))).
Proof.
  simpl. destruct (makeNDArrayData shape dtype values m) as [r m'].
  simpl. now destruct (run acts m').
Qed.

(** A run lists one completion for each call of [makeNDArrayData]. *)
Lemma run_length (acts : list Action) (m : NDArrayManager S) :
  length (fst (run acts m)) = length (makes acts).
Proof.
  revert m. induction acts as [|a acts IH]; intros m; [reflexivity|].
  destruct a as [shape dtype values|id shape dtype|id shape dtype values|id|id];
    try apply IH.
  rewrite run_Make. cbn [fst]. simpl. now rewrite IH.
Qed.

(** As long as the counter stays within 2^53, the [k]-th call of
    [makeNDArrayData] in a run is given the identifier [nextId m + k], and
    the counter ends that many calls further. *)
Lemma run_nextId (acts : list Action) (m : NDArrayManager S) :
  0 <= nextId m -> nextId m + Z.of_nat (length (makes acts)) <= 2 ^ 53 ->
  nextId (snd (run acts m)) = nextId m + Z.of_nat (length (makes acts))
  /\ forall (k : nat) (d : NDArrayData.t),
       fst (run acts m) !! k = Some (Return d) ->
       NDArrayData.id d = nextId m + Z.of_nat k.
Proof.
  revert m. induction acts as [|a acts IH]; intros m H0 Hb.
  - simpl. split; [lia|]. intros k d Hk. now rewrite lookup_nil in Hk.
  - assert (Hstorage : forall {A} (c : JS S A),
      makes (a :: acts) = makes acts ->
      nextId (snd (run acts (snd (on_storage c m))))
      = nextId m + Z.of_nat (length (makes (a :: acts)))
      /\ forall (k : nat) (d : NDArrayData.t),
           fst (run acts (snd (on_storage c m))) !! k = Some (Return d) ->
           NDArrayData.id d = nextId m + Z.of_nat k).
    { intros A c Hm. rewrite Hm in *.
      destruct (IH (snd (on_storage c m))) as [IH1 IH2];
        rewrite ?on_storage_nextId; try assumption.
      rewrite on_storage_nextId in IH1, IH2. now split. }
    destruct a as [shape dtype values|id shape dtype|id shape dtype values|id|id];
      [|now apply Hstorage..].
    clear Hstorage.
    change (makes (Make shape dtype values :: acts))
      with ((shape, dtype, values) :: makes acts) in *.
    simpl length in *.
    destruct (makeNDArrayData_nextId shape dtype values m) as [Hn Hd].
    rewrite number_add_exact in Hn by lia.
    rewrite run_Make. cbn [fst snd].
    destruct (IH (snd (makeNDArrayData shape dtype values m))) as [IH1 IH2];
      rewrite ?Hn; try lia.
    rewrite Hn in IH1, IH2. split; [lia|].
    intros [|k] d Hk; simpl in Hk.
    + injection Hk as Hk. rewrite (Hd d Hk). simpl. lia.
    + rewrite (IH2 k d Hk). lia.
Qed.

(** Identifiers that are numbered consecutively from [n] lie between [n]
    and [n] plus their number, and increase strictly. *)
Lemma consecutive_ids_sorted (rs : list (Completion NDArrayData.t)) (n : Z) :
  (forall (k : nat) (d : NDArrayData.t),
     rs !! k = Some (Return d) -> NDArrayData.id d = n + Z.of_nat k) ->
  Forall (fun i => n <= i < n + Z.of_nat (length rs)) (returned_ids rs)
  /\ StronglySorted Z.lt (returned_ids rs).
Proof.
  revert n. induction rs as [|r rs IH]; intros n Hk.
  - split; constructor.
  - destruct (IH (n + 1)) as [IHb IHs].
    { intros k d Hd. rewrite (Hk (Datatypes.S k) d Hd). lia. }
    simpl length.
    destruct r as [d|e]; unfold returned_ids in *; simpl.
    + assert (Hid : NDArrayData.id d = n) by (rewrite (Hk 0%nat d eq_refl); lia).
      rewrite Hid. split.
      * constructor; [lia|]. eapply Forall_impl; [exact IHb|].
        simpl. intros; lia.
      * constructor; [exact IHs|]. eapply Forall_impl; [exact IHb|].
        simpl. intros; lia.
    + split; [|exact IHs]. eapply Forall_impl; [exact IHb|].
      simpl. intros; lia.
Qed.

(** The identifiers returned in a run that stays within 2^53 lie between
    the counter before and the counter after, and increase strictly. *)
Lemma run_returned_ids (acts : list Action) (m : NDArrayManager S) :
  0 <= nextId m -> nextId m + Z.of_nat (length (makes acts)) <= 2 ^ 53 ->
  Forall (fun i => nextId m <= i < nextId (snd (run acts m)))
         (returned_ids (fst (run acts m)))
  /\ StronglySorted Z.lt (returned_ids (fst (run acts m))).
Proof.
  intros H0 Hb. destruct (run_nextId acts m H0 Hb) as [Hn Hk].
  destruct (consecutive_ids_sorted (fst (run acts m)) (nextId m) Hk)
    as [Hbound Hsorted].
  rewrite run_length in Hbound. rewrite Hn. now split.
Qed.

(** A counter between 0 and 2^53 never goes back: whatever is done later,
    and for however long, no identifier below it is returned. *)
Lemma run_returned_ids_ge (acts : list Action) (m : NDArrayManager S) :
  0 <= nextId m <= 2 ^ 53 ->
  Forall (fun i => nextId m <= i) (returned_ids (fst (run acts m))).
Proof.
  revert m. induction acts as [|a acts IH]; intros m Hm; [constructor|].
  destruct a as [shape dtype values|id shape dtype|id shape dtype values|id|id];
    try (simpl;
         match goal with
         | |- context [run acts (snd (on_storage ?c m))] =>
             specialize (IH (snd (on_storage c m)));
             rewrite on_storage_nextId in IH; now apply IH
         end).
  rewrite run_Make. cbn [fst].
  destruct (makeNDArrayData_nextId shape dtype values m) as [Hn Hd].
  pose proof (number_succ_range (nextId m) Hm) as Hr.
  specialize (IH (snd (makeNDArrayData shape dtype values m))).
  rewrite Hn in IH. specialize (IH ltac:(lia)).
  assert (Hrest : Forall (fun i => nextId m <= i)
            (returned_ids
               (fst (run acts (snd (makeNDArrayData shape dtype values m)))))).
  { eapply Forall_impl; [exact IH|]. simpl. intros; lia. }
  destruct (fst (makeNDArrayData shape dtype values m)) as [d|e] eqn:Hfst;
    unfold returned_ids in *; simpl; [|exact Hrest].
  constructor; [|exact Hrest]. rewrite (Hd d eq_refl). simpl. lia.
Qed.

Lemma StronglySorted_lt_NoDup (l : list Z) : StronglySorted Z.lt l -> NoDup l.
Proof.
  induction 1 as [|x l Hs IH Hx]; constructor; [|exact IH].
  intros Hin. rewrite Forall_forall in Hx.
  specialize (Hx x Hin). lia.
Qed.

(** C1. On a manager built by [new NDArrayManager(storage)], whatever the
    storage and whatever the client does (calls of [makeNDArrayData] that
    return or throw, interleaved with calls of [dispose] and of the other
    methods of the storage), as long as [makeNDArrayData] is called fewer
    than 2^53 times, the range in which the number [nextId] counts: the
    [k]-th call of [makeNDArrayData], counting from 0, is given the
    identifier [1 + k], so the first is given 1; the identifiers returned
    increase strictly, none is returned twice, and all are at least 1. *)
Theorem identifiers_start_at_1_and_increase (st : S) (acts : list Action) :
  Z.of_nat (length (makes acts)) < 2 ^ 53 ->
  let rs := fst (run acts (new_NDArrayManager st)) in
  (forall (k : nat) (d : NDArrayData.t),
     rs !! k = Some (Return d) -> NDArrayData.id d = 1 + Z.of_nat k)
  /\ StronglySorted Z.lt (returned_ids rs)
  /\ NoDup (returned_ids rs)
  /\ Forall (fun i => 1 <= i) (returned_ids rs).
Proof.
  intros Hb rs. subst rs.
  assert (H0 : 0 <= nextId (new_NDArrayManager st)) by (simpl; lia).
  assert (Hb' : nextId (new_NDArrayManager st)
                + Z.of_nat (length (makes acts)) <= 2 ^ 53) by (simpl; lia).
  destruct (run_nextId acts (new_NDArrayManager st) H0 Hb') as [_ Hk].
  destruct (run_returned_ids acts (new_NDArrayManager st) H0 Hb') as [Hbd Hs].
  split; [exact Hk|]. split; [exact Hs|].
  split; [now apply StronglySorted_lt_NoDup|].
  eapply Forall_impl; [exact Hbd|]. simpl. intros; lia.
Qed.

(** C4, amended. [makeNDArrayData] checks neither the shape nor the number
    of values.  Without values it returns the descriptor of the shape it
    was given, whatever the shape; with values it returns or throws as the
    [upload] of the storage does, with the error of [upload]. *)
Theorem makeNDArrayData_validates_nothing (shape : list Z) (dtype : DType)
    (values : option ref) (m : NDArrayManager S) :
  match values with
  | None =>
      fst (makeNDArrayData shape dtype None m) = Return (data_of m shape dtype)
  | Some v =>
      match fst (upload (nextId m) shape dtype v (storage m)) with
      | Return _ =>
          fst (makeNDArrayData shape dtype (Some v) m)
          = Return (data_of m shape dtype)
      | Throw e => fst (makeNDArrayData shape dtype (Some v) m) = Throw e
      end
  end.
Proof.
  destruct values as [v|]; [|reflexivity].
  destruct (upload (nextId m) shape dtype v (storage m)) as [[r|e] st'] eqn:Hup;
    simpl.
  - now rewrite (makeNDArrayData_upload_returns _ _ _ _ _ _ Hup).
  - now rewrite (makeNDArrayData_upload_throws _ _ _ _ _ _ Hup).
Qed.

(** C5. When the [upload] of the storage throws [e] during
    [makeNDArrayData], with [nextId] below 2^53, where the number still
    counts: the call throws [e]; of the manager only [nextId] has changed,
    by one: nothing is logged, and the storage is in the state in which
    its [upload] left it.  The next call that returns, returns the
    identifier after the failed one, and no later call, however many
    there are, ever returns an identifier that is not greater than the
    failed one. *)
Theorem failed_upload_consumes_identifier (shape : list Z) (dtype : DType)
    (values : ref) (m : NDArrayManager S) (e : JsError) (st' : S) :
  upload (nextId m) shape dtype values (storage m) = (Throw e, st') ->
  0 <= nextId m < 2 ^ 53 ->
  let m' := snd (makeNDArrayData shape dtype (Some values) m) in
  fst (makeNDArrayData shape dtype (Some values) m) = Throw e
  /\ nextId m' = nextId m + 1
  /\ console m' = console m
  /\ storage m' = st'
  /\ (forall shape2 dtype2 values2 d,
        fst (makeNDArrayData shape2 dtype2 values2 m') = Return d ->
        NDArrayData.id d = nextId m + 1)
  /\ (forall acts : list Action,
        Forall (fun i => nextId m < i) (returned_ids (fst (run acts m')))).
Proof.
  intros Hup Hm m'.
  assert (Hn : nextId m' = nextId m + 1).
  { subst m'. rewrite (makeNDArrayData_upload_throws _ _ _ _ _ _ Hup). simpl.
    apply number_add_exact. lia. }
  split; [now rewrite (makeNDArrayData_upload_throws _ _ _ _ _ _ Hup)|].
  split; [exact Hn|].
  split; [subst m'; now rewrite (makeNDArrayData_upload_throws _ _ _ _ _ _ Hup)|].
  split; [subst m'; now rewrite (makeNDArrayData_upload_throws _ _ _ _ _ _ Hup)|].
  split.
  - intros shape2 dtype2 values2 d Hd.
    destruct (makeNDArrayData_nextId shape2 dtype2 values2 m') as [_ Hdata].
    rewrite (Hdata d Hd). simpl. exact Hn.
  - intros acts.
    pose proof (run_returned_ids_ge acts m' ltac:(lia)) as Hge.
    eapply Forall_impl; [exact Hge|]. simpl. intros; lia.
Qed.

(** C8. A call of [makeNDArrayData] without values calls no method of the
    storage, in whatever state the manager is: the log of storage calls
    and the state of the storage are as before, and only the counter and
    the tracking log have changed.  It returns the descriptor of the given
    shape and element type with the identifier that was next; on a manager
    built by [new NDArrayManager(storage)] on which [makeNDArrayData] was
    called fewer than 2^53 times, that identifier is greater than every
    identifier returned before, whatever was done before. *)
Theorem no_values_no_storage_operation (shape : list Z) (dtype : DType)
    (m : NDArrayManager S) (st : S) (acts : list Action) :
  Z.of_nat (length (makes acts)) < 2 ^ 53 ->
  let m' := snd (makeNDArrayData shape dtype None m) in
  let rs := fst (run acts (new_NDArrayManager st)) in
  let m1 := snd (run acts (new_NDArrayManager st)) in
  (fst (makeNDArrayData shape dtype None m)
   = Return {| NDArrayData.id := nextId m; NDArrayData.dtype := dtype;
               NDArrayData.shape := shape |}
   /\ storage_calls m' = storage_calls m
   /\ storage m' = storage m
   /\ console m' = console m ++ [("tracked"%string, data_of m shape dtype)])
  /\ fst (makeNDArrayData shape dtype None m1)
     = Return {| NDArrayData.id := nextId m1; NDArrayData.dtype := dtype;
                 NDArrayData.shape := shape |}
  /\ nextId m1 = 1 + Z.of_nat (length (makes acts))
  /\ Forall (fun i => i < nextId m1) (returned_ids rs).
Proof.
  intros Hb m' rs m1. subst m' rs m1.
  split; [rewrite makeNDArrayData_no_values; repeat split|].
  split; [reflexivity|].
  assert (H0 : 0 <= nextId (new_NDArrayManager st)) by (simpl; lia).
  assert (Hb' : nextId (new_NDArrayManager st)
                + Z.of_nat (length (makes acts)) <= 2 ^ 53) by (simpl; lia).
  destruct (run_nextId acts (new_NDArrayManager st) H0 Hb') as [Hn _].
  destruct (run_returned_ids acts (new_NDArrayManager st) H0 Hb') as [Hbd _].
  split; [exact Hn|].
  eapply Forall_impl; [exact Hbd|]. simpl. intros; lia.
Qed.

(** C10. [makeNDArrayData] logs the descriptor when, and only when, it gets
    past the upload.  If the [upload] of the storage throws, the call
    throws and the log is as before; if it returns, or if there are no
    values to upload, the descriptor is appended to the log, once. *)
Theorem tracked_only_after_upload (shape : list Z) (dtype : DType)
    (values : option ref) (m : NDArrayManager S) :
  let r := fst (makeNDArrayData shape dtype values m) in
  let m' := snd (makeNDArrayData shape dtype values m) in
  let data := {| NDArrayData.id := nextId m; NDArrayData.dtype := dtype;
                 NDArrayData.shape := shape |} in
  match values with
  | None => r = Return data /\ console m' = console m ++ [("tracked"%string, data)]
  | Some v =>
      match fst (upload (nextId m) shape dtype v (storage m)) with
      | Return _ =>
          r = Return data /\ console m' = console m ++ [("tracked"%string, data)]
      | Throw e => r = Throw e /\ console m' = console m
      end
  end.
Proof.
  intros r m' data. subst r m' data.
  destruct values as [v|]; [|now rewrite makeNDArrayData_no_values].
  destruct (upload (nextId m) shape dtype v (storage m)) as [[x|e] st'] eqn:Hup;
    simpl.
  - now rewrite (makeNDArrayData_upload_returns _ _ _ _ _ _ Hup).
  - now rewrite (makeNDArrayData_upload_throws _ _ _ _ _ _ Hup).
Qed.
End ManagerFacts.

(** ** [WebGLStorage] *)

Section WebGLStorageFacts.
Context `{Util} `{WebGLEnv}.

(** [upload] begins with [allocate]: it fails as [allocate] does, and goes
    on with the record that [allocate] returned. *)
Lemma upload_after_allocate (id : Z) (shape : list Z) (dtype : DType)
    (values : ref) (w : World) :
  WebGLStorage.upload id shape dtype values w
  = match WebGLStorage.allocate id shape dtype w with
    | (Return webGLData, w') => WebGLStorage.upload_body webGLData dtype values w'
    | (Throw e, w') => (Throw e, w')
    end.
Proof. reflexivity. Qed.

(** What lines 86 to 92 of [allocate] do when they are reached with the
    globals set, [db] an object and a texture available: one call of the
    shape resolver, one texture acquired for the shape it gave, the record
    stored under [id] and returned; the heap and the context are as they
    were. *)
Lemma allocate_body_spec (id : Z) (shape : list Z) (dtype : DType) (w : World)
    (gpgpu : GPGPUContext) (tm tm' : TextureManager) (d : gmap Z WebGLData)
    (tex : WebGLTexture) :
  GPGPU w = Some gpgpu -> TEXTURE_MANAGER w = Some tm -> db w = Some d ->
  acquireTexture (getTextureShapeFromLogicalShape (gl gpgpu) shape) tm
  = (Return tex, tm') ->
  let texShape := getTextureShapeFromLogicalShape (gl gpgpu) shape in
  let webGLData :=
    {| texture := Some tex; type := Some TextureType_DEFAULT;
       texShape := Some texShape |} in
  WebGLStorage.allocate_body id shape dtype w
  = (Return webGLData,
     {| heap := heap w; GPGPU := Some gpgpu; TEXTURE_MANAGER := Some tm';
        db := Some (<[id := webGLData]> d);
        calls := calls w ++ [Call_getTextureShapeFromLogicalShape shape]
                         ++ [Call_acquireTexture texShape] |}).
Proof.
  destruct w as [h g t dbw cs]. simpl. intros -> -> -> Hacq.
  unfold WebGLStorage.allocate_body, bind, gets, deref, ret, modify,
    on_TEXTURE_MANAGER, log_call, set_db, set_TEXTURE_MANAGER. simpl.
  rewrite Hacq. simpl. now rewrite <- app_assoc.
Qed.

(** The class never assigns [db]: on the object as constructed the same
    lines throw a [TypeError] at [this.db[id] = webGLData], the texture
    already acquired. *)
Lemma allocate_body_without_db (id : Z) (shape : list Z) (dtype : DType)
    (w : World) (gpgpu : GPGPUContext) (tm tm' : TextureManager)
    (tex : WebGLTexture) :
  GPGPU w = Some gpgpu -> TEXTURE_MANAGER w = Some tm -> db w = None ->
  acquireTexture (getTextureShapeFromLogicalShape (gl gpgpu) shape) tm
  = (Return tex, tm') ->
  fst (WebGLStorage.allocate_body id shape dtype w)
  = Throw (TypeError "this.db[id]").
Proof.
  destruct w as [h g t dbw cs]. simpl. intros -> -> -> Hacq.
  unfold WebGLStorage.allocate_body, bind, gets, deref, ret, modify,
    on_TEXTURE_MANAGER, log_call, set_db, set_TEXTURE_MANAGER. simpl.
  now rewrite Hacq.
Qed.

(** What lines 99 to 103 of [upload] do when they are reached with a record
    of texture shape [(rows, cols)]: the values are normalised by
    [typedArrayToFloat32], written once to the texture of the record with
    [rows] and [cols], and the record is returned. *)
Lemma upload_body_spec (webGLData : WebGLData) (dtype : DType) (values : ref)
    (w : World) (gpgpu gpgpu' : GPGPUContext) (rows cols : Z)
    (floats : ref) (h' : Heap) (matrix : list f32) :
  GPGPU w = Some gpgpu -> texShape webGLData = Some (rows, cols) ->
  typedArrayToFloat32 values dtype (heap w) = (Return floats, h') ->
  h' !! floats = Some (Float32Array matrix) ->
  uploadMatrixToTexture (texture webGLData) rows cols matrix gpgpu
  = (Return tt, gpgpu') ->
  WebGLStorage.upload_body webGLData dtype values w
  = (Return webGLData,
     {| heap := h'; GPGPU := Some gpgpu'; TEXTURE_MANAGER := TEXTURE_MANAGER w;
        db := db w;
        calls := calls w ++ [Call_uploadMatrixToTexture (texture webGLData)
                               rows cols matrix] |}).
Proof.
  destruct w as [h g t dbw cs]. simpl. intros -> Hshape Hnorm Hfloats Hup.
  unfold WebGLStorage.upload_body, bind, gets, deref, ret, modify, on_heap,
    on_GPGPU, WebGLStorage.read_Float32Array, log_call, set_heap, set_GPGPU.
  simpl. rewrite Hshape. simpl. rewrite Hnorm. simpl. rewrite Hfloats. simpl.
  now rewrite Hup.
Qed.

(** Nothing that follows a call of [throwIfDisposed] is ever run. *)
Lemma after_throwIfDisposed {A} (k : unit -> JS World A) (w : World) :
  bind WebGLStorage.throwIfDisposed k w = (Throw not_implemented, w).
Proof. unfold WebGLStorage.throwIfDisposed. apply bind_throw. Qed.

Lemma allocate_throws (id : Z) (shape : list Z) (dtype : DType) (w : World) :
  WebGLStorage.allocate id shape dtype w = (Throw not_implemented, w).
Proof. unfold WebGLStorage.allocate. apply after_throwIfDisposed. Qed.

Lemma upload_throws (id : Z) (shape : list Z) (dtype : DType) (values : ref)
    (w : World) :
  WebGLStorage.upload id shape dtype values w = (Throw not_implemented, w).
Proof.
  unfold WebGLStorage.upload. apply bind_Throw, allocate_throws.
Qed.

(** C9. Whatever the world (globals set or not, [db] an object or not) and
    whatever the arguments, [throwIfDisposed] throws, and so does each of
    [allocate], [upload], [download] and [dispose], with the error of
    [throwIfDisposed] and before anything else is done: the world is left
    as it was.  A call of [makeNDArrayData] that is given values therefore
    never returns when the storage is a [WebGLStorage]. *)
Theorem WebGLStorage_always_throws (w : World) (id : Z) (shape : list Z)
    (dtype : DType) (values : ref) (m : NDArrayManager World) :
  WebGLStorage.throwIfDisposed w = (Throw not_implemented, w)
  /\ WebGLStorage.allocate id shape dtype w = (Throw not_implemented, w)
  /\ WebGLStorage.upload id shape dtype values w = (Throw not_implemented, w)
  /\ WebGLStorage.download id w = (Throw not_implemented, w)
  /\ WebGLStorage.dispose id w = (Throw not_implemented, w)
  /\ fst (makeNDArrayData shape dtype (Some values) m) = Throw not_implemented
  /\ storage (snd (makeNDArrayData shape dtype (Some values) m)) = storage m.
Proof.
  split; [reflexivity|].
  split; [apply allocate_throws|].
  split; [apply upload_throws|].
  split; [apply after_throwIfDisposed|].
  split; [apply after_throwIfDisposed|].
  rewrite (makeNDArrayData_upload_throws
             (H := WebGLStorage_NDArrayDataStorage) shape dtype values m
             not_implemented (storage m)
             (upload_throws (nextId m) shape dtype values (storage m))).
  split; reflexivity.
Qed.


End WebGLStorageFacts.

(** ** Runs on the sample collaborators *)

Section Runs.
Import Sample.

(** The sample world is the one reached by constructing the storage and
    calling [initializeGPU]. *)
Example sample_World_initialised :
  initializeGPU ([] : GPGPUContext) (0%nat : TextureManager)
    (initial_World sample_heap)
  = (Return tt, sample_World).
Proof. reflexivity. Qed.

(** A [Float32Array] comes back as it is; an [Int32Array] is copied, its
    marker replaced. *)
Example typedArrayToFloat32_sample :
  typedArrayToFloat32 0%nat dt_float32 sample_heap = (Return 0%nat, sample_heap)
  /\ typedArrayToFloat32 1%nat dt_int32 sample_heap
     = (Return 4%nat,
        sample_heap
        ++ [Float32Array [f32_of_Z 7; NaN; f32_of_Z 16777217]])
  /\ typedArrayToFloat32 2%nat dt_bool sample_heap
     = (Return 4%nat,
        sample_heap ++ [Float32Array [f32_of_Z 0; f32_of_Z 1; NaN]]).
Proof. repeat split. Qed.

(** The copy of the [Int32Array] of the sample heap. *)
Lemma typedArrayToFloat32_normalizes_witness :
  sample_heap !! 1%nat = Some (Int32Array [7; - 2 ^ 31; 16777217])
  /\ exists (r : ref) (res : list f32),
       typedArrayToFloat32 1%nat dt_int32 sample_heap
       = (Return r, sample_heap ++ [Float32Array res])
       /\ sample_heap !! r = None
       /\ (sample_heap ++ [Float32Array res]) !! r = Some (Float32Array res)
       /\ length res = length [7; - 2 ^ 31; 16777217]
       /\ forall (i : nat) (val : Z),
            [7; - 2 ^ 31; 16777217] !! i = Some val ->
            res !! i
            = Some (if isValNaN val dt_int32 then NaN else f32_of_Z val)
            /\ (Z.abs val <= 2 ^ 24 -> Z_of_f32 (f32_of_Z val) = Some val).
Proof.
  split; [reflexivity|].
  exact (typedArrayToFloat32_normalizes sample_heap 1%nat dt_int32
           (Int32Array [7; - 2 ^ 31; 16777217]) eq_refl).
Defined.

(** Had [throwIfDisposed] returned and [db] been an object, the rest of
    [allocate] and of [upload] would have run as follows. *)
Example allocate_body_sample :
  WebGLStorage.allocate_body 1 [2; 3] dt_float32 sample_World_with_db
  = (Return {| texture := Some 0%nat; texShape := Some (1, 6);
               type := Some tt |},
     {| heap := sample_heap; GPGPU := Some []; TEXTURE_MANAGER := Some 1%nat;
        db := Some (<[1 := {| texture := Some 0%nat; texShape := Some (1, 6);
                              type := Some tt |}]> ∅);
        calls := [Call_getTextureShapeFromLogicalShape [2; 3];
                  Call_acquireTexture (1, 6)] |}).
Proof.
  apply (allocate_body_spec 1 [2; 3] dt_float32 sample_World_with_db
           [] 0%nat 1%nat ∅ 0%nat); reflexivity.
Qed.

Example upload_body_sample :
  WebGLStorage.upload_body
    {| texture := Some 0%nat; texShape := Some (1, 3); type := Some tt |}
    dt_bool 2%nat sample_World_with_db
  = (Return {| texture := Some 0%nat; texShape := Some (1, 3);
               type := Some tt |},
     {| heap := sample_heap ++ [Float32Array [f32_of_Z 0; f32_of_Z 1; NaN]];
        GPGPU := Some [f32_of_Z 0; f32_of_Z 1; NaN];
        TEXTURE_MANAGER := Some 0%nat; db := Some ∅;
        calls := [Call_uploadMatrixToTexture (Some 0%nat) 1 3
                    [f32_of_Z 0; f32_of_Z 1; NaN]] |}).
Proof. reflexivity. Qed.

(** C7, on the code.  [initializeGPU] was called and the storage has just
    been constructed, so it is not torn down: [allocate(1, [2, 3],
    'float32')] throws the error of [throwIfDisposed] and the world is as
    before: the shape resolver was not consulted, no texture was acquired,
    no record was stored.  The same holds had [db] been an object. *)
Theorem allocate_throws_on_live_backend :
  WebGLStorage.allocate 1 [2; 3] dt_float32 sample_World
  = (Throw (Error "Method not implemented."), sample_World)
  /\ WebGLStorage.allocate 1 [2; 3] dt_float32 sample_World_with_db
     = (Throw (Error "Method not implemented."), sample_World_with_db)
  /\ calls (snd (WebGLStorage.allocate 1 [2; 3] dt_float32 sample_World)) = []
  /\ db (snd (WebGLStorage.allocate 1 [2; 3] dt_float32 sample_World_with_db))
     = Some ∅.
Proof. repeat split. Qed.

(** C2, on the code.  [upload(1, [2, 3], 'float32', values)] with [values]
    the six floats at reference 0 throws the error that [allocate] throws:
    nothing is written to a texture and no record is returned. *)
Theorem upload_throws_before_writing :
  WebGLStorage.upload 1 [2; 3] dt_float32 0%nat sample_World
  = (Throw (Error "Method not implemented."), sample_World)
  /\ fst (WebGLStorage.upload 1 [2; 3] dt_float32 0%nat sample_World)
     = fst (WebGLStorage.allocate 1 [2; 3] dt_float32 sample_World)
  /\ calls (snd (WebGLStorage.upload 1 [2; 3] dt_float32 0%nat sample_World))
     = []
  /\ GPGPU (snd (WebGLStorage.upload 1 [2; 3] dt_float32 0%nat sample_World))
     = Some [].
Proof. repeat split. Qed.

(** C4 fails on the code: [makeNDArrayData([-1], 'float32')] returns the
    descriptor [{shape: [-1], dtype: 'float32', id: 1}]; with the shape
    [[2, 2]] and the three floats at reference 3, the call returns a
    descriptor when the storage accepts the upload, and with a
    [WebGLStorage] it throws [Error('Method not implemented.')]. *)
Lemma makeNDArrayData_accepts_invalid_shapes :
  fst (makeNDArrayData [-1] dt_float32 None (new_NDArrayManager sample_World))
  = Return {| NDArrayData.id := 1; NDArrayData.dtype := dt_float32;
              NDArrayData.shape := [-1] |}
  /\ sample_heap !! 3%nat = Some (Float32Array (map f32_of_Z [1; 2; 3]))
  /\ fst (@makeNDArrayData _ stub_NDArrayDataStorage [2; 2] dt_float32
            (Some 3%nat) (new_NDArrayManager (sample_heap, [])))
     = Return {| NDArrayData.id := 1; NDArrayData.dtype := dt_float32;
                 NDArrayData.shape := [2; 2] |}
  /\ fst (makeNDArrayData [2; 2] dt_float32 (Some 3%nat)
            (new_NDArrayManager sample_World))
     = Throw (Error "Method not implemented.").
Proof. repeat split. Qed.

(** C3 fails on the code for an [int32] of more than 24 bits: of the
    sample [Int32Array], the element 16777217, which is no marker, is in
    the copy as 16777216; and 2147483647 is copied as 2147483648. *)
Lemma typedArrayToFloat32_rounds_large_int32 :
  isValNaN 16777217 dt_int32 = false
  /\ typedArrayToFloat32 1%nat dt_int32 sample_heap
     = (Return 4%nat,
        sample_heap ++ [Float32Array [f32_of_Z 7; NaN; f32_of_Z 16777217]])
  /\ Z_of_f32 (f32_of_Z 16777217) = Some 16777216
  /\ isValNaN 2147483647 dt_int32 = false
  /\ typedArrayToFloat32 0%nat dt_int32 [Int32Array [2147483647]]
     = (Return 1%nat,
        [Int32Array [2147483647]] ++ [Float32Array [f32_of_Z 2147483647]])
  /\ Z_of_f32 (f32_of_Z 2147483647) = Some 2147483648.
Proof. repeat split. Qed.

(** A first call whose upload fails, on a manager of a [WebGLStorage]. *)
Lemma failed_upload_consumes_identifier_witness :
  upload 1 [2; 2] dt_float32 3%nat sample_World
  = (Throw not_implemented, sample_World)
  /\ 0 <= 1 < 2 ^ 53
  /\ let m := new_NDArrayManager sample_World in
     let m' := snd (makeNDArrayData [2; 2] dt_float32 (Some 3%nat) m) in
     fst (makeNDArrayData [2; 2] dt_float32 (Some 3%nat) m)
     = Throw not_implemented
     /\ nextId m' = 1 + 1
     /\ console m' = []
     /\ storage m' = sample_World
     /\ (forall shape2 dtype2 values2 d,
           fst (makeNDArrayData shape2 dtype2 values2 m') = Return d ->
           NDArrayData.id d = 1 + 1)
     /\ (forall acts : list Action,
           Forall (fun i => 1 < i) (returned_ids (fst (run acts m')))).
Proof.
  split; [reflexivity|]. split; [lia|].
  exact (failed_upload_consumes_identifier [2; 2] dt_float32 3%nat
           (new_NDArrayManager sample_World) not_implemented sample_World
           eq_refl ltac:(simpl; lia)).
Defined.

(** Two calls with an array disposed of in between, on a [WebGLStorage]. *)
Lemma identifiers_start_at_1_and_increase_witness :
  Z.of_nat (length (makes [Make [1] dt_bool None; Storage_dispose 1;
                           Make [1] dt_bool None])) < 2 ^ 53
  /\ let rs := fst (run [Make [1] dt_bool None; Storage_dispose 1;
                         Make [1] dt_bool None]
                      (new_NDArrayManager sample_World)) in
     (forall (k : nat) (d : NDArrayData.t),
        rs !! k = Some (Return d) -> NDArrayData.id d = 1 + Z.of_nat k)
     /\ StronglySorted Z.lt (returned_ids rs)
     /\ NoDup (returned_ids rs)
     /\ Forall (fun i => 1 <= i) (returned_ids rs).
Proof.
  split; [reflexivity|].
  exact (identifiers_start_at_1_and_increase sample_World
           [Make [1] dt_bool None; Storage_dispose 1; Make [1] dt_bool None]
           eq_refl).
Defined.

(** A call without values after a call that failed, on a [WebGLStorage]. *)
Lemma no_values_no_storage_operation_witness :
  Z.of_nat (length (makes [Make [3] dt_bool (Some 2%nat)])) < 2 ^ 53
  /\ let m := new_NDArrayManager sample_World in
     let m' := snd (makeNDArrayData [2; 3] dt_float32 None m) in
     let rs := fst (run [Make [3] dt_bool (Some 2%nat)]
                      (new_NDArrayManager sample_World)) in
     let m1 := snd (run [Make [3] dt_bool (Some 2%nat)]
                      (new_NDArrayManager sample_World)) in
     (fst (makeNDArrayData [2; 3] dt_float32 None m)
      = Return {| NDArrayData.id := nextId m; NDArrayData.dtype := dt_float32;
                  NDArrayData.shape := [2; 3] |}
      /\ storage_calls m' = storage_calls m
      /\ storage m' = storage m
      /\ console m'
         = console m
           ++ [("tracked"%string,
                {| NDArrayData.id := nextId m; NDArrayData.dtype := dt_float32;
                   NDArrayData.shape := [2; 3] |})])
     /\ fst (makeNDArrayData [2; 3] dt_float32 None m1)
        = Return {| NDArrayData.id := nextId m1;
                    NDArrayData.dtype := dt_float32;
                    NDArrayData.shape := [2; 3] |}
     /\ nextId m1 = 1 + Z.of_nat (length (makes [Make [3] dt_bool (Some 2%nat)]))
     /\ Forall (fun i => i < nextId m1) (returned_ids rs).
Proof.
  split; [reflexivity|].
  exact (no_values_no_storage_operation [2; 3] dt_float32
           (new_NDArrayManager sample_World) sample_World
           [Make [3] dt_bool (Some 2%nat)] eq_refl).
Defined.

(** At 2^53 the counter stays where it is: the identifier 2^53 is given
    out again. *)
Example nextId_sticks_at_2_53 :
  let m := {| nextId := 2 ^ 53; storage := sample_World; console := [];
              storage_calls := [] |} in
  NDArrayData.id <$> returned_data
    (fst (run [Make [1] dt_bool None; Make [1] dt_bool None] m))
  = [2 ^ 53; 2 ^ 53].
Proof. vm_compute. reflexivity. Qed.

(** Two calls of [makeNDArrayData([1], 'bool')] return 1 and 2, also when
    the first array is disposed of in between; a third call, with values,
    fails on a [WebGLStorage], and the fourth returns 4. *)
Example two_sequential_calls :
  fst (run [Make [1] dt_bool None; Storage_dispose 1; Make [1] dt_bool None;
            Make [3] dt_bool (Some 2%nat); Make [1] dt_bool None]
         (new_NDArrayManager sample_World))
  = [Return {| NDArrayData.id := 1; NDArrayData.dtype := dt_bool;
               NDArrayData.shape := [1] |};
     Return {| NDArrayData.id := 2; NDArrayData.dtype := dt_bool;
               NDArrayData.shape := [1] |};
     Throw not_implemented;
     Return {| NDArrayData.id := 4; NDArrayData.dtype := dt_bool;
               NDArrayData.shape := [1] |}].
Proof. reflexivity. Qed.
End Runs.

(** * Further properties *)

(** ** Storing an integer never gives [NaN] *)

Lemma shr_1_nonneg (mrs : shr_record) :
  0 <= shr_m mrs -> 0 <= shr_m (shr_1 mrs).
Proof.
  destruct mrs as [m r s]. simpl.
  destruct m as [|[p|p|]|[p|p|]]; simpl; lia.
Qed.

Lemma iter_pos_shr_1_nonneg (p : positive) (mrs : shr_record) :
  0 <= shr_m mrs -> 0 <= shr_m (SpecFloat.iter_pos shr_1 p mrs).
Proof.
  revert mrs. induction p as [p IH|p IH|]; intros mrs Hm; simpl.
  - apply IH, IH, shr_1_nonneg, Hm.
  - apply IH, IH, Hm.
  - apply shr_1_nonneg, Hm.
Qed.

Lemma shr_fexp_nonneg (m e : Z) (l : location) :
  0 <= m -> 0 <= shr_m (fst (shr_fexp 24 128 m e l)).
Proof.
  intros Hm. unfold shr_fexp, shr.
  assert (H0 : 0 <= shr_m (shr_record_of_loc m l))
    by (destruct l as [|[| |]]; exact Hm).
  destruct (fexp 24 128 (Zdigits2 m + e) - e) as [|p|p]; simpl; try exact H0.
  now apply iter_pos_shr_1_nonneg.
Qed.

Lemma round_nearest_even_nonneg (m : Z) (l : location) :
  0 <= m -> 0 <= round_nearest_even m l.
Proof.
  intros Hm. destruct l as [|[| |]]; simpl; try lia.
  destruct (Z.even m); lia.
Qed.

Lemma binary_round_aux_not_nan (s : bool) (m : positive) (e : Z)
    (l : location) :
  binary_round_aux 24 128 s (Z.pos m) e l <> S754_nan.
Proof.
  unfold binary_round_aux.
  pose proof (shr_fexp_nonneg (Z.pos m) e l ltac:(lia)) as H1.
  destruct (shr_fexp 24 128 (Z.pos m) e l) as [mrs' e']. simpl in H1.
  pose proof (shr_fexp_nonneg
    (round_nearest_even (shr_m mrs') (loc_of_shr_record mrs')) e' loc_Exact
    (round_nearest_even_nonneg _ _ H1)) as H2.
  destruct (shr_fexp 24 128 _ e' loc_Exact) as [mrs'' e'']. simpl in H2.
  destruct (shr_m mrs'') as [|q|q]; try discriminate; try lia.
  destruct (e'' <=? 128 - 24); discriminate.
Qed.

(** Whatever the integer, the slot holds a number. *)
Lemma f32_of_Z_not_NaN (z : Z) : f32_of_Z z <> NaN.
Proof.
  unfold f32_of_Z, NaN, binary_normalize, binary_round.
  destruct z as [|m|m]; [discriminate| |];
    destruct (shl_align m 0 _) as [mz ez]; apply binary_round_aux_not_nan.
Qed.

(** ** More on [typedArrayToFloat32] *)

Section TypedArrayToFloat32More.
Context `{Util}.

Lemma typedArrayToFloat32_Float32Array (h : Heap) (a : ref) (dtype : DType)
    (fs : list f32) :
  h !! a = Some (Float32Array fs) ->
  typedArrayToFloat32 a dtype h = (Return a, h).
Proof. intros Ha. unfold typedArrayToFloat32. now rewrite Ha. Qed.

(** X1. What [typedArrayToFloat32] returns is a [Float32Array]: handing the
    result to [typedArrayToFloat32] again, with any element type, gives the
    same reference back and allocates nothing. *)
Theorem typedArrayToFloat32_idempotent (h h' : Heap) (a r : ref)
    (dtype dtype' : DType) :
  typedArrayToFloat32 a dtype h = (Return r, h') ->
  typedArrayToFloat32 r dtype' h' = (Return r, h').
Proof.
  intros Hrun. destruct (h !! a) as [[fs|elts|elts]|] eqn:Ha.
  - rewrite (typedArrayToFloat32_Float32Array h a dtype fs Ha) in Hrun.
    injection Hrun as <- <-.
    now apply typedArrayToFloat32_Float32Array with (fs := fs).
  - rewrite (typedArrayToFloat32_integers h a dtype elts (or_introl Ha)) in Hrun.
    injection Hrun as <- <-.
    eapply typedArrayToFloat32_Float32Array.
    apply list_lookup_middle. reflexivity.
  - rewrite (typedArrayToFloat32_integers h a dtype elts (or_intror Ha)) in Hrun.
    injection Hrun as <- <-.
    eapply typedArrayToFloat32_Float32Array.
    apply list_lookup_middle. reflexivity.
  - unfold typedArrayToFloat32 in Hrun. rewrite Ha in Hrun. discriminate.
Qed.

(** X2. In the copy of an [Int32Array] or a [Uint8Array], the slot [i]
    holds [NaN] exactly when [util.isValNaN] holds of the element [i] of
    the source: the conversion of an integer never brings a [NaN] in. *)
Theorem typedArrayToFloat32_NaN_iff_marker (h : Heap) (a : ref) (dtype : DType)
    (elts : list Z) :
  h !! a = Some (Int32Array elts) \/ h !! a = Some (Uint8Array elts) ->
  exists res : list f32,
    typedArrayToFloat32 a dtype h
    = (Return (length h), h ++ [Float32Array res])
    /\ forall i : nat,
         res !! i = Some NaN
         <-> exists val : Z, elts !! i = Some val /\ isValNaN val dtype = true.
Proof.
  intros Ha. eexists.
  split; [exact (typedArrayToFloat32_integers h a dtype elts Ha)|].
  intros i. rewrite list_lookup_fmap.
  destruct (elts !! i) as [v|]; simpl.
  - destruct (isValNaN v dtype) eqn:Hv.
    + split; [intros _; now exists v|reflexivity].
    + split.
      * intros [= Hnan]. now apply f32_of_Z_not_NaN in Hnan.
      * intros (val & [= <-] & Hval). congruence.
  - split; [discriminate|]. intros (val & Hval & _). discriminate.
Qed.

(** X3. When no element of the source is a marker and every element has
    at most 24 bits, the integers can be read back from the copy: nothing
    is lost on the way to 32-bit floats. *)
Theorem typedArrayToFloat32_round_trip (h : Heap) (a : ref) (dtype : DType)
    (elts : list Z) :
  h !! a = Some (Int32Array elts) \/ h !! a = Some (Uint8Array elts) ->
  Forall (fun val => isValNaN val dtype = false /\ Z.abs val <= 2 ^ 24) elts ->
  exists res : list f32,
    typedArrayToFloat32 a dtype h
    = (Return (length h), h ++ [Float32Array res])
    /\ map Z_of_f32 res = map Some elts.
Proof.
  intros Ha Hall. eexists.
  split; [exact (typedArrayToFloat32_integers h a dtype elts Ha)|].
  clear Ha. induction Hall as [|v elts' [Hv Hb] _ IH]; simpl; [reflexivity|].
  rewrite Hv, (f32_of_Z_exact v Hb). f_equal. exact IH.
Qed.
End TypedArrayToFloat32More.

(** ** Runs of a client on a manager *)

Section ManagerRuns.
Context {S : Type} `{NDArrayDataStorage S}.

(** What one call of [makeNDArrayData] does to the tracking log, to the
    history of uploads, to the storage and to the counter. *)
Lemma makeNDArrayData_effect (shape : list Z) (dtype : DType)
    (values : option ref) (m : NDArrayManager S) :
  console (snd (makeNDArrayData shape dtype values m))
  = console m ++ map (pair "tracked"%string)
                     (returned_data [fst (makeNDArrayData shape dtype values m)])
  /\ storage_calls (snd (makeNDArrayData shape dtype values m))
     = storage_calls m ++ uploads_from (nextId m) [(shape, dtype, values)]
  /\ storage (snd (makeNDArrayData shape dtype values m))
     = storage_after (nextId m) [Make shape dtype values] (storage m)
  /\ nextId (snd (makeNDArrayData shape dtype values m))
     = number_add (nextId m) 1.
Proof.
  destruct values as [v|].
  - simpl storage_after.
    destruct (upload (nextId m) shape dtype v (storage m)) as [[r|e] st'] eqn:Hup.
    + rewrite (makeNDArrayData_upload_returns _ _ _ _ _ _ Hup). now simpl.
    + rewrite (makeNDArrayData_upload_throws _ _ _ _ _ _ Hup). simpl.
      now rewrite app_nil_r.
  - rewrite makeNDArrayData_no_values. simpl. now rewrite app_nil_r.
Qed.

Lemma on_storage_frame {A} (c : JS S A) (m : NDArrayManager S) :
  console (snd (on_storage c m)) = console m
  /\ storage_calls (snd (on_storage c m)) = storage_calls m
  /\ storage (snd (on_storage c m)) = snd (c (storage m))
  /\ nextId (snd (on_storage c m)) = nextId m.
Proof. unfold on_storage. now destruct (c (storage m)). Qed.

Lemma uploads_from_cons (n : Z) (mk : list Z * DType * option ref)
    (ms : list (list Z * DType * option ref)) :
  uploads_from n (mk :: ms) = uploads_from n [mk] ++ uploads_from (n + 1) ms.
Proof. destruct mk as [[shape dtype] [v|]]; reflexivity. Qed.

(** From any state of the manager: the log grows by one entry for each
    descriptor that the run returns. *)
Lemma run_console (acts : list Action) (m : NDArrayManager S) :
  console (snd (run acts m))
  = console m ++ map (pair "tracked"%string) (returned_data (fst (run acts m))).
Proof.
  revert m. induction acts as [|a acts IH]; intros m.
  - simpl. now rewrite app_nil_r.
  - destruct a as [shape dtype values|id shape dtype|id shape dtype values|id|id];
      try (simpl;
           match goal with
           | |- context [run acts (snd (on_storage ?c m))] =>
               rewrite (IH (snd (on_storage c m)));
               destruct (on_storage_frame c m) as (Hc & _);
               now rewrite Hc
           end).
    rewrite run_Make.
    destruct (makeNDArrayData_effect shape dtype values m) as (Hc & _).
    cbn [fst snd]. rewrite IH, Hc, <- app_assoc. f_equal.
    destruct (fst (makeNDArrayData shape dtype values m)); reflexivity.
Qed.

(** From a state of the manager from which the counter stays within 2^53:
    the history grows by the uploads of the calls that have values, and
    the storage goes through these uploads and the calls of the client. *)
Lemma run_uploads (acts : list Action) (m : NDArrayManager S) :
  0 <= nextId m -> nextId m + Z.of_nat (length (makes acts)) <= 2 ^ 53 ->
  storage_calls (snd (run acts m))
  = storage_calls m ++ uploads_from (nextId m) (makes acts)
  /\ storage (snd (run acts m)) = storage_after (nextId m) acts (storage m).
Proof.
  revert m. induction acts as [|a acts IH]; intros m H0 Hb.
  - simpl. now rewrite app_nil_r.
  - assert (Hstorage : forall {A} (c : JS S A),
      makes (a :: acts) = makes acts ->
      storage_calls (snd (run acts (snd (on_storage c m))))
      = storage_calls m ++ uploads_from (nextId m) (makes acts)
      /\ storage (snd (run acts (snd (on_storage c m))))
         = storage_after (nextId m) acts (snd (c (storage m)))).
    { intros A c Hm. rewrite Hm in Hb.
      destruct (on_storage_frame c m) as (_ & Hs & Hst & Hn).
      destruct (IH (snd (on_storage c m))) as [IH1 IH2];
        rewrite ?Hn; try assumption.
      rewrite Hs, Hn in IH1. rewrite Hst, Hn in IH2. now split. }
    destruct a as [shape dtype values|id shape dtype|id shape dtype values|id|id];
      [|now apply Hstorage..].
    clear Hstorage.
    change (makes (Make shape dtype values :: acts))
      with ((shape, dtype, values) :: makes acts) in *.
    simpl length in Hb.
    destruct (makeNDArrayData_effect shape dtype values m) as (_ & Hs & Hst & Hn).
    rewrite number_add_exact in Hn by lia.
    rewrite run_Make. cbn [fst snd].
    destruct (IH (snd (makeNDArrayData shape dtype values m))) as [IH1 IH2];
      rewrite ?Hn; try lia.
    rewrite Hs, Hn in IH1. rewrite Hst, Hn in IH2. split.
    + rewrite IH1, <- app_assoc. f_equal. symmetry. apply uploads_from_cons.
    + rewrite IH2. destruct values as [v|]; reflexivity.
Qed.

(** X4. After any run of a client on a new manager, with any storage, the
    tracking log holds one entry ['tracked', data] for each descriptor
    that was returned, in the order of the calls, and nothing else: a call
    that threw left no entry, and no call of a method of the storage made
    by the client is logged. *)
Theorem console_lists_returned_descriptors (st : S) (acts : list Action) :
  console (snd (run acts (new_NDArrayManager st)))
  = map (pair "tracked"%string)
        (returned_data (fst (run acts (new_NDArrayManager st)))).
Proof. exact (run_console acts (new_NDArrayManager st)). Qed.

(** X5. After a run of a client on a new manager, with any storage, in
    which [makeNDArrayData] is called fewer than 2^53 times: the manager
    has called [upload] once for each call of [makeNDArrayData] that had
    values, in the order of the calls, each time with the identifier of
    that call (the [k]-th call, counting from 1, has identifier [k],
    whether earlier calls returned or threw) and with the shape, the
    element type and the values it was given; a call without values asked
    for no upload, and an upload that threw was not tried again.  The
    storage is in the state that these uploads and the calls made by the
    client itself, performed in order on its first state, lead to. *)
Theorem uploads_follow_the_calls (st : S) (acts : list Action) :
  Z.of_nat (length (makes acts)) < 2 ^ 53 ->
  storage_calls (snd (run acts (new_NDArrayManager st)))
  = uploads_from 1 (makes acts)
  /\ storage (snd (run acts (new_NDArrayManager st)))
     = storage_after 1 acts st.
Proof.
  intros Hb.
  exact (run_uploads acts (new_NDArrayManager st) ltac:(simpl; lia)
           ltac:(simpl; lia)).
Qed.
End ManagerRuns.

(** ** A manager on a [WebGLStorage] *)

Section WebGLRuns.
Context `{Util} `{WebGLEnv}.

(** A method of the storage that is called by the client changes neither
    the world nor the counter. *)
Lemma on_storage_WebGL (a : Action) (m : NDArrayManager World) :
  match a with
  | Make _ _ _ => True
  | Storage_allocate id shape dtype =>
      storage (snd (on_storage (allocate id shape dtype) m)) = storage m
  | Storage_upload id shape dtype values =>
      storage (snd (on_storage (upload id shape dtype values) m)) = storage m
  | Storage_download id =>
      storage (snd (on_storage (download id) m)) = storage m
  | Storage_dispose id =>
      storage (snd (on_storage (dispose id) m)) = storage m
  end.
Proof. destruct a; reflexivity || exact I. Qed.

(** The outcome of the call numbered [n]. *)
Local Abbreviation outcome n mk :=
  (match mk with
   | (shape, dtype, None) =>
       Return {| NDArrayData.id := n; NDArrayData.dtype := dtype;
                 NDArrayData.shape := shape |}
   | (_, _, Some _) => Throw not_implemented
   end).

Lemma makeNDArrayData_WebGL (shape : list Z) (dtype : DType)
    (values : option ref) (m : NDArrayManager World) :
  fst (makeNDArrayData shape dtype values m)
  = outcome (nextId m) (shape, dtype, values)
  /\ storage (snd (makeNDArrayData shape dtype values m)) = storage m.
Proof.
  destruct values as [v|].
  - rewrite (makeNDArrayData_upload_throws
               (H := WebGLStorage_NDArrayDataStorage) shape dtype v m
               not_implemented (storage m)
               (upload_throws (nextId m) shape dtype v (storage m))).
    split; reflexivity.
  - rewrite makeNDArrayData_no_values. split; reflexivity.
Qed.

(** The world of the storage is the same after any run. *)
Lemma run_WebGL_storage (acts : list Action) (m : NDArrayManager World) :
  storage (snd (run acts m)) = storage m.
Proof.
  revert m. induction acts as [|a acts IH]; intros m; [reflexivity|].
  pose proof (on_storage_WebGL a m) as Ha.
  destruct a as [shape dtype values|id shape dtype|id shape dtype values|id|id].
  - rewrite run_Make. cbn [snd]. rewrite IH.
    now destruct (makeNDArrayData_WebGL shape dtype values m).
  - exact (eq_trans (IH (snd (on_storage (allocate id shape dtype) m))) Ha).
  - exact (eq_trans (IH (snd (on_storage (upload id shape dtype values) m))) Ha).
  - exact (eq_trans (IH (snd (on_storage (download id) m))) Ha).
  - exact (eq_trans (IH (snd (on_storage (dispose id) m))) Ha).
Qed.

(** As long as the counter stays within 2^53, the calls are numbered one
    after the other. *)
Lemma run_WebGL (acts : list Action) (m : NDArrayManager World) :
  0 <= nextId m -> nextId m + Z.of_nat (length (makes acts)) <= 2 ^ 53 ->
  fst (run acts m)
  = imap (fun (k : nat) mk => outcome (nextId m + Z.of_nat k) mk) (makes acts).
Proof.
  revert m. induction acts as [|a acts IH]; intros m Hpos Hb; [reflexivity|].
  assert (Hstorage : forall {A} (c : JS World A),
    makes (a :: acts) = makes acts ->
    fst (run acts (snd (on_storage c m)))
    = imap (fun (k : nat) mk => outcome (nextId m + Z.of_nat k) mk)
           (makes acts)).
  { intros A c Hm. rewrite Hm in Hb.
    rewrite IH; rewrite on_storage_nextId; trivial. }
  destruct a as [shape dtype values|id shape dtype|id shape dtype values|id|id];
    [|now apply Hstorage..].
  clear Hstorage.
  change (makes (Make shape dtype values :: acts))
    with ((shape, dtype, values) :: makes acts) in *.
  simpl length in Hb.
  destruct (makeNDArrayData_nextId shape dtype values m) as [Hn _].
  rewrite number_add_exact in Hn by lia.
  destruct (makeNDArrayData_WebGL shape dtype values m) as [Hr _].
  rewrite run_Make. cbn [fst]. rewrite IH, Hn, Hr by (rewrite Hn; lia).
  rewrite imap_cons, Z.add_0_r. f_equal.
  apply imap_ext. intros k mk _. simpl.
  replace (nextId m + 1 + Z.of_nat k)
    with (nextId m + Z.of_nat (Datatypes.S k)) by lia.
  reflexivity.
Qed.

(** X6. With a [WebGLStorage] as its storage, whatever a client does on a
    new manager, as long as it calls [makeNDArrayData] fewer than 2^53
    times: the [k]-th call of [makeNDArrayData], counting from 0, returns
    the descriptor with identifier [1 + k] when it has no values and
    throws [Error('Method not implemented.')] when it has; and the world
    of the storage (heap, globals, [db], calls to the collaborators) is at
    the end what it was at the start. *)
Theorem WebGL_manager_creates_only_without_values (w : World)
    (acts : list Action) :
  Z.of_nat (length (makes acts)) < 2 ^ 53 ->
  storage (snd (run acts (new_NDArrayManager w))) = w
  /\ fst (run acts (new_NDArrayManager w))
     = imap (fun (k : nat) mk => outcome (1 + Z.of_nat k) mk) (makes acts).
Proof.
  intros Hb. split; [exact (run_WebGL_storage acts (new_NDArrayManager w))|].
  exact (run_WebGL acts (new_NDArrayManager w) ltac:(simpl; lia)
           ltac:(simpl; lia)).
Qed.

(** ** [initializeGPU] and the statements behind the guard *)

(** X7. [initializeGPU] returns, leaves both handles in the globals and
    touches nothing else; a second call replaces both handles, so that
    what the first one stored is lost. *)
Theorem initializeGPU_sets_and_overrides (gpgpu1 gpgpu2 : GPGPUContext)
    (tm1 tm2 : TextureManager) (w : World) :
  let w1 := snd (initializeGPU gpgpu1 tm1 w) in
  fst (initializeGPU gpgpu1 tm1 w) = Return tt
  /\ GPGPU w1 = Some gpgpu1 /\ TEXTURE_MANAGER w1 = Some tm1
  /\ heap w1 = heap w /\ db w1 = db w /\ calls w1 = calls w
  /\ initializeGPU gpgpu2 tm2 w1 = initializeGPU gpgpu2 tm2 w.
Proof. repeat split. Qed.

(** X8. On a storage object as the class constructs it ([db] is
    [undefined]), with the globals set and a texture available, the
    statements of [allocate] behind the guard consult the shape resolver,
    take a texture from the texture manager and then throw a [TypeError]
    at [this.db[id] = webGLData]: the texture is taken and recorded
    nowhere. *)
Theorem allocate_body_takes_texture_then_throws (id : Z) (shape : list Z)
    (dtype : DType) (w : World) (gpgpu : GPGPUContext)
    (tm tm' : TextureManager) (tex : WebGLTexture) :
  GPGPU w = Some gpgpu -> TEXTURE_MANAGER w = Some tm -> db w = None ->
  acquireTexture (getTextureShapeFromLogicalShape (gl gpgpu) shape) tm
  = (Return tex, tm') ->
  exists msg,
    WebGLStorage.allocate_body id shape dtype w
    = (Throw (TypeError msg),
       {| heap := heap w; GPGPU := Some gpgpu; TEXTURE_MANAGER := Some tm';
          db := None;
          calls := calls w
                   ++ [Call_getTextureShapeFromLogicalShape shape;
                       Call_acquireTexture
                         (getTextureShapeFromLogicalShape (gl gpgpu) shape)]
       |}).
Proof.
  destruct w as [h g t dbw cs]. simpl. intros -> -> -> Hacq.
  unfold WebGLStorage.allocate_body, bind, gets, deref, ret, modify,
    on_TEXTURE_MANAGER, log_call, set_db, set_TEXTURE_MANAGER. simpl.
  rewrite Hacq. simpl. rewrite <- app_assoc. eexists. reflexivity.
Qed.

(** X9. Where [db] is an object, the statements of [allocate] behind the
    guard store the new record under [id] without looking at what [db]
    holds: the record is found under [id] afterwards, a record that was
    there before is replaced, and the records under other identifiers are
    kept.  The new record has the texture that was acquired, the shape
    the resolver gave and the type [TextureType.DEFAULT]. *)
Theorem allocate_body_stores_record (id : Z) (shape : list Z) (dtype : DType)
    (w : World) (gpgpu : GPGPUContext) (tm tm' : TextureManager)
    (d : gmap Z WebGLData) (tex : WebGLTexture) :
  GPGPU w = Some gpgpu -> TEXTURE_MANAGER w = Some tm -> db w = Some d ->
  acquireTexture (getTextureShapeFromLogicalShape (gl gpgpu) shape) tm
  = (Return tex, tm') ->
  exists (webGLData : WebGLData) (d' : gmap Z WebGLData),
    fst (WebGLStorage.allocate_body id shape dtype w) = Return webGLData
    /\ db (snd (WebGLStorage.allocate_body id shape dtype w)) = Some d'
    /\ d' !! id = Some webGLData
    /\ (forall id' : Z, id' <> id -> d' !! id' = d !! id')
    /\ texture webGLData = Some tex
    /\ texShape webGLData
       = Some (getTextureShapeFromLogicalShape (gl gpgpu) shape)
    /\ type webGLData = Some TextureType_DEFAULT.
Proof.
  intros Hg Ht Hd Hacq.
  rewrite (allocate_body_spec id shape dtype w gpgpu tm tm' d tex Hg Ht Hd Hacq).
  eexists. eexists. simpl.
  split; [reflexivity|]. split; [reflexivity|].
  split; [apply lookup_insert_eq|].
  split; [intros id' Hne; now apply lookup_insert_ne|].
  repeat split.
Qed.

(** X10. Given a record with a texture shape, the globals set and the
    write accepted, the statements of [upload] behind [allocate] hand to
    [uploadMatrixToTexture], once, the texture and the rows and columns of
    the record and the values as 32-bit floats: the elements of a
    [Float32Array] as they are, with no copy made, and the elements of an
    [Int32Array] or [Uint8Array] with [NaN] for the markers, in a new
    array that stays in the heap.  The number of values is not compared
    with rows times columns, [db] and the texture manager are not touched,
    and the record is returned. *)
Theorem upload_body_writes_normalised_values (webGLData : WebGLData)
    (dtype : DType) (values : ref) (w : World) (gpgpu gpgpu' : GPGPUContext)
    (rows cols : Z) (arr : TypedArray) :
  let matrix :=
    match arr with
    | Float32Array elts => elts
    | Int32Array elts | Uint8Array elts =>
        map (fun val => if isValNaN val dtype then NaN else f32_of_Z val) elts
    end in
  let heap' :=
    match arr with
    | Float32Array _ => heap w
    | _ => heap w ++ [Float32Array matrix]
    end in
  GPGPU w = Some gpgpu -> texShape webGLData = Some (rows, cols) ->
  heap w !! values = Some arr ->
  uploadMatrixToTexture (texture webGLData) rows cols matrix gpgpu
  = (Return tt, gpgpu') ->
  WebGLStorage.upload_body webGLData dtype values w
  = (Return webGLData,
     {| heap := heap'; GPGPU := Some gpgpu';
        TEXTURE_MANAGER := TEXTURE_MANAGER w; db := db w;
        calls := calls w ++ [Call_uploadMatrixToTexture (texture webGLData)
                               rows cols matrix] |}).
Proof.
  intros matrix heap' Hg Hshape Harr Hup.
  destruct arr as [fs|elts|elts]; subst matrix heap'.
  - apply (upload_body_spec webGLData dtype values w gpgpu gpgpu' rows cols
             values (heap w) fs Hg Hshape); [|exact Harr|exact Hup].
    now apply typedArrayToFloat32_Float32Array with (fs := fs).
  - apply (upload_body_spec webGLData dtype values w gpgpu gpgpu' rows cols
             (length (heap w)) _ _ Hg Hshape); [| |exact Hup].
    + apply typedArrayToFloat32_integers. now left.
    + apply list_lookup_middle. reflexivity.
  - apply (upload_body_spec webGLData dtype values w gpgpu gpgpu' rows cols
             (length (heap w)) _ _ Hg Hshape); [| |exact Hup].
    + apply typedArrayToFloat32_integers. now right.
    + apply list_lookup_middle. reflexivity.
Qed.
End WebGLRuns.

(** ** The further properties on the sample collaborators *)

Section MoreRuns.
Import Sample.

(** The copy of the sample [Int32Array], converted once more. *)
Lemma typedArrayToFloat32_idempotent_witness :
  typedArrayToFloat32 1%nat dt_int32 sample_heap
  = (Return 4%nat,
     sample_heap ++ [Float32Array [f32_of_Z 7; NaN; f32_of_Z 16777217]])
  /\ typedArrayToFloat32 4%nat dt_bool
       (sample_heap ++ [Float32Array [f32_of_Z 7; NaN; f32_of_Z 16777217]])
     = (Return 4%nat,
        sample_heap ++ [Float32Array [f32_of_Z 7; NaN; f32_of_Z 16777217]]).
Proof.
  split; [reflexivity|].
  exact (typedArrayToFloat32_idempotent sample_heap _ 1%nat 4%nat dt_int32
           dt_bool eq_refl).
Defined.

(** The markers of the sample [Int32Array]. *)
Lemma typedArrayToFloat32_NaN_iff_marker_witness :
  sample_heap !! 1%nat = Some (Int32Array [7; - 2 ^ 31; 16777217])
  /\ exists res : list f32,
       typedArrayToFloat32 1%nat dt_int32 sample_heap
       = (Return (length sample_heap), sample_heap ++ [Float32Array res])
       /\ forall i : nat,
            res !! i = Some NaN
            <-> exists val : Z,
                  [7; - 2 ^ 31; 16777217] !! i = Some val
                  /\ isValNaN val dt_int32 = true.
Proof.
  split; [reflexivity|].
  exact (typedArrayToFloat32_NaN_iff_marker sample_heap 1%nat dt_int32
           [7; - 2 ^ 31; 16777217] (or_introl eq_refl)).
Defined.

(** Four booleans, none of them the marker. *)
Lemma typedArrayToFloat32_round_trip_witness :
  Forall (fun val => isValNaN val dt_bool = false /\ Z.abs val <= 2 ^ 24)
         [0; 1; 1; 0]
  /\ exists res : list f32,
       typedArrayToFloat32 0%nat dt_bool [Uint8Array [0; 1; 1; 0]]
       = (Return 1%nat, [Uint8Array [0; 1; 1; 0]] ++ [Float32Array res])
       /\ map Z_of_f32 res = map Some [0; 1; 1; 0].
Proof.
  assert (Hall : Forall (fun val => isValNaN val dt_bool = false
                                    /\ Z.abs val <= 2 ^ 24) [0; 1; 1; 0])
    by (repeat constructor; discriminate).
  split; [exact Hall|].
  exact (typedArrayToFloat32_round_trip [Uint8Array [0; 1; 1; 0]] 0%nat dt_bool
           [0; 1; 1; 0] (or_intror eq_refl) Hall).
Defined.

(** The storage as constructed, after [initializeGPU]. *)
Lemma allocate_body_takes_texture_then_throws_witness :
  db sample_World = None
  /\ exists msg,
       WebGLStorage.allocate_body 1 [2; 3] dt_float32 sample_World
       = (Throw (TypeError msg),
          {| heap := sample_heap; GPGPU := Some [];
             TEXTURE_MANAGER := Some 1%nat; db := None;
             calls := [] ++ [Call_getTextureShapeFromLogicalShape [2; 3];
                             Call_acquireTexture (1, 6)] |}).
Proof.
  split; [reflexivity|].
  exact (allocate_body_takes_texture_then_throws 1 [2; 3] dt_float32
           sample_World [] 0%nat 1%nat 0%nat eq_refl eq_refl eq_refl eq_refl).
Defined.

(** A second record under the identifier 1, and the record under 2 kept. *)
Lemma allocate_body_stores_record_witness :
  let old := {| texture := Some 7%nat; texShape := Some (1, 1);
                type := Some tt |} in
  let d : gmap Z WebGLData := <[2 := old]> (<[1 := old]> ∅) in
  let w := {| heap := sample_heap; GPGPU := Some [];
              TEXTURE_MANAGER := Some 0%nat; db := Some d; calls := [] |} in
  exists (webGLData : WebGLData) (d' : gmap Z WebGLData),
    fst (WebGLStorage.allocate_body 1 [2; 3] dt_float32 w) = Return webGLData
    /\ db (snd (WebGLStorage.allocate_body 1 [2; 3] dt_float32 w)) = Some d'
    /\ d' !! 1 = Some webGLData
    /\ (forall id' : Z, id' <> 1 -> d' !! id' = d !! id')
    /\ texture webGLData = Some 0%nat
    /\ texShape webGLData = Some (1, 6)
    /\ type webGLData = Some tt.
Proof.
  intros old d w.
  exact (allocate_body_stores_record 1 [2; 3] dt_float32 w [] 0%nat 1%nat d
           0%nat eq_refl eq_refl eq_refl eq_refl).
Defined.

(** The three booleans of the sample heap, written to a texture of one row. *)
Lemma upload_body_writes_normalised_values_witness :
  sample_heap !! 2%nat = Some (Uint8Array [0; 1; 255])
  /\ WebGLStorage.upload_body
       {| texture := Some 0%nat; texShape := Some (1, 3); type := Some tt |}
       dt_bool 2%nat sample_World_with_db
     = (Return {| texture := Some 0%nat; texShape := Some (1, 3);
                  type := Some tt |},
        {| heap := sample_heap ++ [Float32Array [f32_of_Z 0; f32_of_Z 1; NaN]];
           GPGPU := Some [f32_of_Z 0; f32_of_Z 1; NaN];
           TEXTURE_MANAGER := Some 0%nat; db := Some ∅;
           calls := [] ++ [Call_uploadMatrixToTexture (Some 0%nat) 1 3
                             [f32_of_Z 0; f32_of_Z 1; NaN]] |}).
Proof.
  split; [reflexivity|].
  exact (upload_body_writes_normalised_values
           {| texture := Some 0%nat; texShape := Some (1, 3); type := Some tt |}
           dt_bool 2%nat sample_World_with_db [] [f32_of_Z 0; f32_of_Z 1; NaN]
           1 3 (Uint8Array [0; 1; 255]) eq_refl eq_refl eq_refl eq_refl).
Defined.

(** A run on the test double: one upload, and one call of [upload] made
    by the client itself, which the manager does not count. *)
Lemma uploads_follow_the_calls_witness :
  Z.of_nat (length (makes [Make [1] dt_bool None;
                           Make [3] dt_bool (Some 2%nat);
                           Storage_upload 9 [3] dt_bool 2%nat])) < 2 ^ 53
  /\ storage_calls
       (snd (run (H := stub_NDArrayDataStorage)
               [Make [1] dt_bool None; Make [3] dt_bool (Some 2%nat);
                Storage_upload 9 [3] dt_bool 2%nat]
               (new_NDArrayManager (sample_heap, []))))
     = uploads_from 1 (makes [Make [1] dt_bool None;
                              Make [3] dt_bool (Some 2%nat);
                              Storage_upload 9 [3] dt_bool 2%nat])
  /\ storage
       (snd (run (H := stub_NDArrayDataStorage)
               [Make [1] dt_bool None; Make [3] dt_bool (Some 2%nat);
                Storage_upload 9 [3] dt_bool 2%nat]
               (new_NDArrayManager (sample_heap, []))))
     = storage_after (H := stub_NDArrayDataStorage) 1
         [Make [1] dt_bool None; Make [3] dt_bool (Some 2%nat);
          Storage_upload 9 [3] dt_bool 2%nat] (sample_heap, []).
Proof.
  split; [reflexivity|].
  exact (uploads_follow_the_calls (H := stub_NDArrayDataStorage)
           (sample_heap, [])
           [Make [1] dt_bool None; Make [3] dt_bool (Some 2%nat);
            Storage_upload 9 [3] dt_bool 2%nat] eq_refl).
Defined.

(** On the test double, which keeps the identifiers it was given: the
    upload of the manager is in the history and in the state of the
    storage, with the same identifier; the upload of the client is in the
    state only. *)
Example uploads_and_storage_state_sample :
  let m := snd (run (H := stub_NDArrayDataStorage)
                  [Make [1] dt_bool None; Make [3] dt_bool (Some 2%nat);
                   Storage_upload 9 [3] dt_bool 2%nat]
                  (new_NDArrayManager (sample_heap, []))) in
  storage_calls m = [Call_upload 2 [3] dt_bool 2%nat]
  /\ storage m = (sample_heap, [2; 9]).
Proof. repeat split. Qed.

(** A run on a [WebGLStorage]: the call with values throws. *)
Lemma WebGL_manager_creates_only_without_values_witness :
  Z.of_nat (length (makes [Make [1] dt_bool None; Storage_dispose 1;
                           Make [3] dt_bool (Some 2%nat);
                           Make [2] dt_int32 None])) < 2 ^ 53
  /\ storage (snd (run [Make [1] dt_bool None; Storage_dispose 1;
                        Make [3] dt_bool (Some 2%nat); Make [2] dt_int32 None]
                     (new_NDArrayManager sample_World)))
     = sample_World
  /\ fst (run [Make [1] dt_bool None; Storage_dispose 1;
               Make [3] dt_bool (Some 2%nat); Make [2] dt_int32 None]
            (new_NDArrayManager sample_World))
     = [Return {| NDArrayData.id := 1; NDArrayData.dtype := dt_bool;
                  NDArrayData.shape := [1] |};
        Throw not_implemented;
        Return {| NDArrayData.id := 3; NDArrayData.dtype := dt_int32;
                  NDArrayData.shape := [2] |}].
Proof.
  split; [reflexivity|].
  exact (WebGL_manager_creates_only_without_values sample_World
           [Make [1] dt_bool None; Storage_dispose 1;
            Make [3] dt_bool (Some 2%nat); Make [2] dt_int32 None] eq_refl).
Defined.

(** A run on a [WebGLStorage] with its log and its history of uploads. *)
Example histories_sample :
  let m := snd (run [Make [1] dt_bool None; Storage_dispose 1;
                     Make [3] dt_bool (Some 2%nat); Make [2] dt_int32 None]
                  (new_NDArrayManager sample_World)) in
  console m
  = [("tracked"%string,
      {| NDArrayData.id := 1; NDArrayData.dtype := dt_bool;
         NDArrayData.shape := [1] |});
     ("tracked"%string,
      {| NDArrayData.id := 3; NDArrayData.dtype := dt_int32;
         NDArrayData.shape := [2] |})]
  /\ storage_calls m = [Call_upload 2 [3] dt_bool 2%nat]
  /\ storage m = sample_World.
Proof. repeat split. Qed.
End MoreRuns.
